(** * crazyflie_server: the per-vehicle session of the Crazyflie ROS bridge

    A shallow embedding of [crazyflie/scripts/crazyflie_server.py], class
    [CrazyflieROS], and the properties of its command path, its watchdog
    loop, its link lifecycle, its telemetry conversion and its parameter
    synchronisation.

    Modelling conventions.
    - Python [float] is IEEE binary64: the primitive [float] of the
      Standard Library, with its own [+], [*] and [/].
    - Python [int] is unbounded: [Z].
    - An uncaught exception is a [Raise]; mutations made before the
      exception stay made, so a handler returns the session it leaves
      behind next to its [result].
    - Calls into the collaborators (link, commander, clock) are recorded
      as a list of [Effect]s, in program order.  Log lines and [print]
      are not recorded.
    - Callbacks run on other threads; they are interleaved with the
      watchdog at the granularity of one loop iteration. *)

From Stdlib Require Import ZArith List Bool Lia Floats Ascii String.
From stdpp Require Import base option list gmap strings pretty.
Import ListNotations.

Set Warnings "-inexact-float".

(** ** Python values *)

Inductive exn : Type :=
| ValueError
| OverflowError
| KeyError (key : string).

Inductive result (A : Type) : Type :=
| Ok (a : A)
| Raise (e : exn).
Arguments Ok {A} a.
Arguments Raise {A} e.

(** Sequencing: an exception skips the rest. *)
Definition bind {A B} (r : result A) (k : A -> result B) : result B :=
  match r with
  | Ok a => k a
  | Raise e => Raise e
  end.

#[global] Instance result_bind : MBind result := fun A B k r => bind r k.

#[global] Instance result_fmap : FMap result := fun A B f r =>
  match r with
  | Ok a => Ok (f a)
  | Raise e => Raise e
  end.

Module Py.

(** The integer mantissa of a finite binary64, with its sign. *)
Definition signed (s : bool) (m : positive) : Z :=
  if s then Z.neg m else Z.pos m.

(** [int(x)] on a float: truncation towards zero; [nan] and the
    infinities raise. *)
Definition int (x : float) : result Z :=
  match Prim2SF x with
  | S754_nan => Raise ValueError
  | S754_infinity _ => Raise OverflowError
  | S754_zero _ => Ok 0%Z
  | S754_finite s m e =>
      if (0 <=? e)%Z then Ok (signed s m * 2 ^ e)%Z
      else Ok (Z.quot (signed s m) (2 ^ (- e)))
  end.

(** [math.floor(x)]: the greatest integer below [x]; raises as [int]
    does. *)
Definition floor (x : float) : result Z :=
  match Prim2SF x with
  | S754_nan => Raise ValueError
  | S754_infinity _ => Raise OverflowError
  | S754_zero _ => Ok 0%Z
  | S754_finite s m e =>
      if (0 <=? e)%Z then Ok (signed s m * 2 ^ e)%Z
      else Ok (Z.div (signed s m) (2 ^ (- e)))
  end.

(** [math.pi] and [math.radians], as CPython computes them. *)
Definition pi : float := 0x1.921fb54442d18p+1%float.
Definition radians (x : float) : float := (x * (pi / 180))%float.

(** [str.replace(old, new)] for one-character [old] and [new]. *)
Fixpoint replace (old new : ascii) (s : string) : string :=
  match s with
  | EmptyString => EmptyString
  | String c s' =>
      String (if Ascii.eqb c old then new else c) (replace old new s')
  end.

(** [c in s] for a one-character [c]. *)
Fixpoint contains (c : ascii) (s : string) : bool :=
  match s with
  | EmptyString => false
  | String c' s' => Ascii.eqb c' c || contains c s'
  end.

End Py.

(** The spec's [clamp(t, lo, hi)]. *)
Definition clamp (t lo hi : Z) : Z := Z.max lo (Z.min t hi).

(** ** Messages *)

Module Vector3.
Record t : Type := mk { x : float; y : float; z : float }.
Definition default : t := mk 0 0 0.
End Vector3.

Module Twist.
Record t : Type := mk { linear : Vector3.t; angular : Vector3.t }.
(** [Twist()] *)
Definition default : t := mk Vector3.default Vector3.default.
End Twist.

(** The spec's names for the four components of a command. *)
Definition lateral (c : Twist.t) : float := Vector3.y (Twist.linear c).
Definition longitudinal (c : Twist.t) : float := Vector3.x (Twist.linear c).
Definition angular_rate (c : Twist.t) : float := Vector3.z (Twist.angular c).
Definition vertical (c : Twist.t) : float := Vector3.z (Twist.linear c).

(** ** The session object *)

Inductive Lifecycle : Type := Disconnected | Connecting | Connected.

Record CrazyflieROS : Type := mkSession {
  link_uri : string;
  tf_prefix : string;
  roll_trim : float;
  pitch_trim : float;
  enable_logging : bool;
  _cmdVel : Twist.t;
  _state : Lifecycle;
  _isEmergency : bool
}.

(** [CrazyflieROS.__init__] *)
Definition __init__ (uri prefix : string) (roll pitch : float)
    (logging : bool) : CrazyflieROS :=
  {| link_uri := uri; tf_prefix := prefix;
     roll_trim := roll; pitch_trim := pitch; enable_logging := logging;
     _cmdVel := Twist.default; _state := Disconnected;
     _isEmergency := false |}.

Definition set_cmdVel (data : Twist.t) (self : CrazyflieROS) : CrazyflieROS :=
  {| link_uri := link_uri self; tf_prefix := tf_prefix self;
     roll_trim := roll_trim self; pitch_trim := pitch_trim self;
     enable_logging := enable_logging self;
     _cmdVel := data; _state := _state self;
     _isEmergency := _isEmergency self |}.

Definition set_state (st : Lifecycle) (self : CrazyflieROS) : CrazyflieROS :=
  {| link_uri := link_uri self; tf_prefix := tf_prefix self;
     roll_trim := roll_trim self; pitch_trim := pitch_trim self;
     enable_logging := enable_logging self;
     _cmdVel := _cmdVel self; _state := st;
     _isEmergency := _isEmergency self |}.

Definition set_isEmergency (b : bool) (self : CrazyflieROS) : CrazyflieROS :=
  {| link_uri := link_uri self; tf_prefix := tf_prefix self;
     roll_trim := roll_trim self; pitch_trim := pitch_trim self;
     enable_logging := enable_logging self;
     _cmdVel := _cmdVel self; _state := _state self;
     _isEmergency := b |}.

(** ** Calls into the link and the clock *)

Inductive Effect : Type :=
| open_link (uri : string)
| send_setpoint (roll pitch yawrate : float) (thrust : Z)
| sleep (seconds : float)
| close_link.

Definition is_send (e : Effect) : bool :=
  match e with send_setpoint _ _ _ _ => true | _ => false end.

(** ** The send path *)

(** [_send_setpoint]: trim, clamp, hand over to the commander. *)
Definition _send_setpoint (self : CrazyflieROS) : result Effect :=
  let roll := (Vector3.y (Twist.linear (_cmdVel self)) + roll_trim self)%float in
  let pitch := (Vector3.x (Twist.linear (_cmdVel self)) + pitch_trim self)%float in
  let yawrate := Vector3.z (Twist.angular (_cmdVel self)) in
  match Py.int (Vector3.z (Twist.linear (_cmdVel self))) with
  | Raise e => Raise e
  | Ok i =>
      let thrust := Z.min (Z.max 0 i) 60000 in
      Ok (send_setpoint roll pitch yawrate thrust)
  end.

(** [_cmdVelChanged]: store the command, then send unless in emergency. *)
Definition _cmdVelChanged (data : Twist.t) (self : CrazyflieROS)
    : CrazyflieROS * result (list Effect) :=
  let self := set_cmdVel data self in
  if negb (_isEmergency self) then
    match _send_setpoint self with
    | Ok e => (self, Ok [e])
    | Raise ex => (self, Raise ex)
    end
  else (self, Ok []).

(** [_emergency]: set the latch. *)
Definition _emergency (self : CrazyflieROS) : CrazyflieROS :=
  set_isEmergency true self.

(** ** Link lifecycle handlers *)

(** [_try_to_connect]: enter [Connecting], then ask the link to open. *)
Definition _try_to_connect (self : CrazyflieROS)
    : CrazyflieROS * list Effect :=
  (set_state Connecting self, [open_link (link_uri self)]).

(** [_connected], lines 60-61: the state assignment that precedes the
    session setup.  The setup itself (telemetry blocks, parameter
    seeding) never touches [_state]; its parameter part is
    [ParamSync._connected_params] below. *)
Definition _connected (uri : string) (self : CrazyflieROS) : CrazyflieROS :=
  set_state Connected self.

Definition _connection_failed (uri msg : string) (self : CrazyflieROS)
    : CrazyflieROS :=
  set_state Disconnected self.

Definition _connection_lost (uri msg : string) (self : CrazyflieROS)
    : CrazyflieROS :=
  set_state Disconnected self.

Definition _disconnected (uri : string) (self : CrazyflieROS)
    : CrazyflieROS :=
  set_state Disconnected self.

(** [_link_quality_updated]: the body is commented out. *)
Definition _link_quality_updated (percentage : float) (self : CrazyflieROS)
    : CrazyflieROS :=
  self.

(** ** The watchdog loop *)

(** What another thread can deliver to the session between two loop
    iterations. *)
Inductive Callback : Type :=
| cmd_vel (data : Twist.t)
| emergency
| connected (uri : string)
| connection_failed (uri msg : string)
| connection_lost (uri msg : string)
| disconnected (uri : string)
| link_quality_updated (percentage : float).

(** One callback, run to completion.  An exception raised inside a
    subscriber callback ends that callback only. *)
Definition dispatch (cb : Callback) (self : CrazyflieROS)
    : CrazyflieROS * list Effect :=
  match cb with
  | cmd_vel data =>
      match _cmdVelChanged data self with
      | (self', Ok tr) => (self', tr)
      | (self', Raise _) => (self', [])
      end
  | emergency => (_emergency self, [])
  | connected uri => (_connected uri self, [])
  | connection_failed uri msg => (_connection_failed uri msg self, [])
  | connection_lost uri msg => (_connection_lost uri msg self, [])
  | disconnected uri => (_disconnected uri self, [])
  | link_quality_updated p => (_link_quality_updated p self, [])
  end.

Fixpoint deliver (cbs : list Callback) (self : CrazyflieROS)
    : CrazyflieROS * list Effect :=
  match cbs with
  | [] => (self, [])
  | cb :: cbs' =>
      let '(self1, tr1) := dispatch cb self in
      let '(self2, tr2) := deliver cbs' self1 in
      (self2, tr1 ++ tr2)
  end.

(** What the loop reads from its surroundings in one iteration:
    [rospy.is_shutdown()] and [self._subCmdVel.get_num_connections()]. *)
Record Tick : Type := mkTick {
  is_shutdown : bool;
  get_num_connections : nat
}.

Inductive Control : Type :=
| Continue
| Break
| Uncaught (e : exn).

(** One pass over lines 250-267: the loop test and the loop body. *)
Definition _update_iteration (t : Tick) (self : CrazyflieROS)
    : CrazyflieROS * list Effect * Control :=
  if is_shutdown t then (self, [], Break)
  else if _isEmergency self then (self, [], Break)
  else
    match _state self with
    | Disconnected =>
        let '(self', tr) := _try_to_connect self in
        (self', tr, Continue)
    | Connected =>
        let self' :=
          if (0 <? get_num_connections t)%nat then self
          else set_cmdVel Twist.default self in
        match _send_setpoint self' with
        | Ok e => (self', [e; sleep 0.2], Continue)
        | Raise ex => (self', [], Uncaught ex)
        end
    | Connecting => (self, [sleep 0.5], Continue)
    end.

(** Lines 268-274: what follows the loop.  The integer literals of
    [send_setpoint(0, 0, 0, 0)] reach the packet as the floats 0.0 and
    the thrust 0. *)
Definition shutdown_sequence : list Effect :=
  flat_map (fun _ => [send_setpoint 0 0 0 0; sleep 0.01]) (seq 0 100)
  ++ [sleep 0.1; close_link].

Inductive Outcome : Type :=
| Running          (* the schedule ended inside the periodic phase *)
| Closed           (* the loop was left and the link closed *)
| Died (e : exn).  (* the thread ended on an uncaught exception *)

(** [_update] against a schedule: before each iteration the callbacks
    that arrived meanwhile, then the iteration. *)
Fixpoint _update (sched : list (list Callback * Tick)) (self : CrazyflieROS)
    : CrazyflieROS * list Effect * Outcome :=
  match sched with
  | [] => (self, [], Running)
  | (arrivals, t) :: sched' =>
      let '(self1, tr1) := deliver arrivals self in
      match _update_iteration t self1 with
      | (self2, tr2, Continue) =>
          let '(self3, tr3, out) := _update sched' self2 in
          (self3, tr1 ++ tr2 ++ tr3, out)
      | (self2, tr2, Break) =>
          (self2, tr1 ++ tr2 ++ shutdown_sequence, Closed)
      | (self2, tr2, Uncaught ex) =>
          (self2, tr1 ++ tr2, Died ex)
      end
  end.

(** Everything that can happen to the lifecycle state: a callback, or
    one watchdog iteration. *)
Inductive Stimulus : Type :=
| incoming (cb : Callback)
| watchdog_tick (t : Tick).

Definition react (st : Stimulus) (self : CrazyflieROS)
    : CrazyflieROS * list Effect :=
  match st with
  | incoming cb => dispatch cb self
  | watchdog_tick t =>
      let '(self', tr, _) := _update_iteration t self in (self', tr)
  end.

(** The transition table of the spec, section 4.2, as a relation between
    the state before, the stimulus and the state after. *)
Definition in_table (a : Lifecycle) (st : Stimulus) (b : Lifecycle) : bool :=
  match a, st, b with
  | Disconnected, watchdog_tick _, Connecting => true
  | Connecting, incoming (connected _), Connected => true
  | Connecting, incoming (connection_failed _ _), Disconnected => true
  | Connected, incoming (connection_lost _ _), Disconnected => true
  | Connected, incoming (disconnected _), Disconnected => true
  | _, _, _ => false
  end.

(** The shutdown phase in the words of the spec: a hundred zero-setpoints
    [interval] apart, one more wait, then the close. *)
Definition shutdown_as_worded (interval last_wait : float) : list Effect :=
  concat (repeat [send_setpoint 0 0 0 0; sleep interval] 100)
  ++ [sleep last_wait; close_link].

(** ** Telemetry: the inertial block *)

Module Imu.
Record t : Type := mk {
  stamp : Z;
  frame_id : string;
  orientation_covariance : list float;
  angular_velocity : Vector3.t;
  linear_acceleration : Vector3.t
}.
End Imu.

(** [data[key]] on the sample dictionary. *)
Definition getitem (data : gmap string float) (key : string) : result float :=
  match data !! key with
  | Some v => Ok v
  | None => Raise (KeyError key)
  end.


(** [_log_data_imu]: the message handed to [_pubImu.publish]; [now] is
    [rospy.Time.now()]. *)
Definition _log_data_imu (self : CrazyflieROS) (now : Z)
    (data : gmap string float) : result Imu.t :=
  let cov := <[0%nat := (-1)%float]> (repeat 0%float 9) in
  gx ← getitem data "gyro.x";
  gy ← getitem data "gyro.y";
  gz ← getitem data "gyro.z";
  ax ← getitem data "acc.x";
  ay ← getitem data "acc.y";
  az ← getitem data "acc.z";
  Ok (Imu.mk now (tf_prefix self +:+ "/base_link") cov
        (Vector3.mk (Py.radians gx) (Py.radians gy) (Py.radians gz))
        (Vector3.mk (ax * 9.81) (ay * 9.81) (az * 9.81))).

(** The sample of the spec's conversion example, the same reading on
    every axis. *)
Definition imu_sample (gyro acc : float) : gmap string float :=
  <["gyro.x" := gyro]> (<["gyro.y" := gyro]> (<["gyro.z" := gyro]>
  (<["acc.x" := acc]> (<["acc.y" := acc]> (<["acc.z" := acc]> ∅))))).

(** [abs(a - b) <= tol] *)
Definition approx (a b tol : float) : bool :=
  PrimFloat.leb (PrimFloat.abs (a - b)) tol.

(** ** Parameter synchronisation *)

(** The argument of the device library's [set_value]: a parameter value
    as the external store holds it, or text. *)
Inductive Arg (value : Type) : Type :=
| raw (v : value)
| text (s : string).
Arguments raw {value} v.
Arguments text {value} s.

(** Calls into the device's parameter subsystem. *)
Inductive ParamCall (value : Type) : Type :=
| add_update_callback (group : string)
| set_value (cf_param : string) (v : Arg value)
| request_param_update (cf_param : string).
Arguments add_update_callback {value} group.
Arguments set_value {value} cf_param v.
Arguments request_param_update {value} cf_param.

Definition is_text_push {value} (c : ParamCall value) : bool :=
  match c with
  | set_value _ (text _) => true
  | _ => false
  end.

Section ParamSync.

(** Parameter values are opaque to the session. *)
Context {value : Type}.

(** [str(v)] *)
Variable py_str : value -> string.

(** The device library may refuse a push (for one, an identifier its
    catalog does not know): the exception [set_value] raises, if any. *)
Variable set_value_raises : string -> option exn.

(** The external store, a map from full paths to values;
    [rospy.get_param] raises [KeyError] on a path it does not hold. *)
Definition get_param (store : gmap string value) (path : string)
    : result value :=
  match store !! path with
  | Some v => Ok v
  | None => Raise (KeyError path)
  end.

Definition has_param (store : gmap string value) (path : string) : bool :=
  bool_decide (is_Some (store !! path)).

(** One call of [self._cf.param.set_value]. *)
Definition do_set_value (cf_param : string) (v : Arg value)
    : result (ParamCall value) :=
  match set_value_raises cf_param with
  | Some e => Raise e
  | None => Ok (set_value cf_param v)
  end.

(** [_param_callback]: a device-originated change, written to the
    external store. *)
Definition _param_callback (self : CrazyflieROS) (name : string)
    (v : value) (store : gmap string value) : gmap string value :=
  let ros_param := tf_prefix self +:+ "/" +:+ Py.replace "." "/" name in
  <[ros_param := v]> store.

(** The [for] loop of [_update_params]: the calls that reached the
    device, and how the loop ended. *)
Fixpoint _update_params_loop (self : CrazyflieROS)
    (store : gmap string value) (params : list string)
    : list (ParamCall value) * result unit :=
  match params with
  | [] => ([], Ok tt)
  | param :: rest =>
      let ros_param := "/" +:+ tf_prefix self +:+ "/" +:+ param in
      let cf_param := Py.replace "/" "." param in
      match get_param store ros_param with
      | Raise e => ([], Raise e)
      | Ok v =>
          match do_set_value cf_param (text (py_str v)) with
          | Raise e => ([], Raise e)
          | Ok call =>
              let '(calls, r) := _update_params_loop self store rest in
              (call :: calls, r)
          end
      end
  end.

Inductive UpdateParamsResponse : Type := mkUpdateParamsResponse.

(** [_update_params] *)
Definition _update_params (self : CrazyflieROS)
    (store : gmap string value) (req_params : list string)
    : list (ParamCall value) * result UpdateParamsResponse :=
  let '(calls, r) := _update_params_loop self store req_params in
  (calls, bind r (fun _ => Ok mkUpdateParamsResponse)).



(** The first entry of a request on which the loop stops, if any. *)
Definition entry_fails (self : CrazyflieROS) (store : gmap string value)
    (param : string) : bool :=
  negb (has_param store ("/" +:+ tf_prefix self +:+ "/" +:+ param))
  || bool_decide (is_Some (set_value_raises (Py.replace "/" "." param))).

(** The push the loop makes for an entry it gets through. *)
Definition push_of (self : CrazyflieROS) (store : gmap string value)
    (param : string) : option (ParamCall value) :=
  v ← store !! ("/" +:+ tf_prefix self +:+ "/" +:+ param);
  Some (set_value (Py.replace "/" "." param) (text (py_str v))).

End ParamSync.

(** Two floats the device cannot tell apart: the same float, or equal
    under the float comparison (the two zeros). *)
Definition same_number (a b : float) : Prop :=
  a = b \/ PrimFloat.eqb a b = true.

(** [x != 0] *)
Definition nonzero (x : float) : Prop := PrimFloat.eqb x 0 = false.

(** ** The scenario of the spec

    A session with trims (roll 1.0, pitch -0.5) and the command (lateral
    2.0, longitudinal 3.0, angular 0.1, vertical 100). *)
Definition session0 : CrazyflieROS :=
  __init__ "radio://0/80/250K" "cf" 1.0 (-0.5) false.

Definition command0 : Twist.t :=
  Twist.mk (Vector3.mk 3.0 2.0 100) (Vector3.mk 0 0 0.1).

(** An external store holding the parameter of the spec's scenario, with
    integer values, their decimal [str], and a device that refuses
    nothing. *)
Definition store0 : gmap string Z := {[ "/cf/flightmode/posSet" := 1%Z ]}.

Definition str_Z (v : Z) : string := pretty v.

Definition accepts_all (cf_param : string) : option exn := None.

(** ** The rest of the session *)

(** *** Creating a session *)

Module AddCrazyflie.
End AddCrazyflie.


(** *** The logging blocks of [_connected] *)

Module LogConfig.
Record t : Type := mk {
  name : string;
  period_in_ms : Z;
  variables : list (string * string)
}.
End LogConfig.

(** [_lg_imu], lines 64-70. *)
Definition _lg_imu : LogConfig.t :=
  LogConfig.mk "IMU" 10
    [("acc.x", "float"); ("acc.y", "float"); ("acc.z", "float");
     ("gyro.x", "float"); ("gyro.y", "float"); ("gyro.z", "float")].

(** [_lg_log2], lines 83-89. *)
Definition _lg_log2 : LogConfig.t :=
  LogConfig.mk "LOG2" 100
    [("mag.x", "float"); ("mag.y", "float"); ("mag.z", "float");
     ("baro.temp", "float"); ("baro.pressure", "float");
     ("pm.vbat", "float")].

(** Calls into the device's logging subsystem. *)
Inductive LogCall : Type :=
| add_config (c : LogConfig.t)
| add_data_callback (c : LogConfig.t)
| add_error_callback (c : LogConfig.t)
| start (c : LogConfig.t).

(** One block, lines 72-81 and 92-101: [valid] is what the device's
    catalog made of the configuration. *)
Definition setup_block (valid : LogConfig.t -> bool) (c : LogConfig.t)
    : list LogCall :=
  add_config c
  :: (if valid c then [add_data_callback c; add_error_callback c; start c]
      else []).

(** [_connected], lines 63-101. *)
Definition _connected_logging (self : CrazyflieROS)
    (valid : LogConfig.t -> bool) : list LogCall :=
  if enable_logging self then
    setup_block valid _lg_imu ++ setup_block valid _lg_log2
  else [].

Definition is_start (c : LogCall) : bool :=
  match c with start _ => true | _ => false end.

(** The keys of a sample that carries every variable of a block. *)
Definition carries (data : gmap string float) (c : LogConfig.t) : Prop :=
  Forall (fun v => is_Some (data !! v.1)) (LogConfig.variables c).

(** *** Telemetry: the environmental block *)

(** What [_log_data_log2] hands to its four publishers. *)
Inductive Publication : Type :=
| publish_temperature (stamp : Z) (frame_id : string) (temperature : float)
| publish_magnetic_field (stamp : Z) (frame_id : string)
    (magnetic_field : Vector3.t)
| publish_pressure (data : float)
| publish_battery (data : float).

(** [_log_data_log2]: the messages published, in order, and how the
    callback ended; [now_temp] and [now_mag] are its two readings of
    [rospy.Time.now()]. *)
Definition _log_data_log2 (self : CrazyflieROS) (now_temp now_mag : Z)
    (data : gmap string float) : list Publication * result unit :=
  let frame_id := tf_prefix self +:+ "/base_link" in
  match getitem data "baro.temp" with
  | Raise e => ([], Raise e)
  | Ok temp =>
      let p1 := publish_temperature now_temp frame_id temp in
      match (mx ← getitem data "mag.x"; my ← getitem data "mag.y";
             mz ← getitem data "mag.z"; Ok (Vector3.mk mx my mz)) with
      | Raise e => ([p1], Raise e)
      | Ok field =>
          let p2 := publish_magnetic_field now_mag frame_id field in
          match getitem data "baro.pressure" with
          | Raise e => ([p1; p2], Raise e)
          | Ok pressure =>
              let p3 := publish_pressure pressure in
              match getitem data "pm.vbat" with
              | Raise e => ([p1; p2; p3], Raise e)
              | Ok vbat => ([p1; p2; p3; publish_battery vbat], Ok tt)
              end
          end
      end
  end.

(** *** Reading runs of the session *)

(** What a callback writes into the lifecycle state and into the stored
    command, if anything. *)
Definition state_written (cb : Callback) : option Lifecycle :=
  match cb with
  | connected _ => Some Connected
  | connection_failed _ _ | connection_lost _ _ | disconnected _ =>
      Some Disconnected
  | cmd_vel _ | emergency | link_quality_updated _ => None
  end.

Definition command_written (cb : Callback) : option Twist.t :=
  match cb with
  | cmd_vel data => Some data
  | _ => None
  end.

(** An effect of the periodic phase of a session: the link-open request
    for its address, a setpoint within the thrust range, or one of the
    two sleeps of the loop. *)
Definition periodic (self : CrazyflieROS) (e : Effect) : Prop :=
  match e with
  | open_link uri => uri = link_uri self
  | send_setpoint _ _ _ thrust => (0 <= thrust <= 60000)%Z
  | sleep d => d = 0.2%float \/ d = 0.5%float
  | close_link => False
  end.

Definition thrust_in_range (e : Effect) : Prop :=
  match e with
  | send_setpoint _ _ _ thrust => (0 <= thrust <= 60000)%Z
  | _ => True
  end.

Definition is_close (e : Effect) : bool :=
  match e with close_link => true | _ => false end.

Definition is_open (e : Effect) : bool :=
  match e with open_link _ => true | _ => false end.

(** The configuration a session was created with. *)
Definition same_config (a b : CrazyflieROS) : Prop :=
  link_uri a = link_uri b /\ tf_prefix a = tf_prefix b
  /\ roll_trim a = roll_trim b /\ pitch_trim a = pitch_trim b
  /\ enable_logging a = enable_logging b.

(** The device identifier a call names, if it is a push. *)
Definition pushed_identifier {value} (c : ParamCall value) : option string :=
  match c with
  | set_value cf_param _ => Some cf_param
  | _ => None
  end.


Definition is_request {value} (c : ParamCall value) : bool :=
  match c with
  | request_param_update _ => true
  | _ => false
  end.

(** A complete environmental sample. *)
Definition log2_sample (mag temp pressure vbat : float)
    : gmap string float :=
  <["mag.x" := mag]> (<["mag.y" := mag]> (<["mag.z" := mag]>
  (<["baro.temp" := temp]> (<["baro.pressure" := pressure]>
  (<["pm.vbat" := vbat]> ∅))))).

(** * Properties *)

(** ** Numbers *)

Example int_truncates :
  Py.int 100.7 = Ok 100%Z /\ Py.int (-0.5) = Ok 0%Z
  /\ Py.int (-3.5) = Ok (-3)%Z /\ Py.int 1e5 = Ok 100000%Z.
Proof. repeat split; reflexivity. Qed.

Example floor_rounds_down :
  Py.floor 100.7 = Ok 100%Z /\ Py.floor (-0.5) = Ok (-1)%Z
  /\ Py.floor (-3.5) = Ok (-4)%Z.
Proof. repeat split; reflexivity. Qed.

Example int_raises :
  Py.int nan = Raise ValueError /\ Py.int infinity = Raise OverflowError
  /\ Py.int neg_infinity = Raise OverflowError.
Proof. repeat split; reflexivity. Qed.

Example thrust_is_clamped :
  _send_setpoint (set_cmdVel (Twist.mk (Vector3.mk 0 0 70000.9)
                                (Vector3.mk 0 0 0)) session0)
  = Ok (send_setpoint 1.0 (-0.5) 0 60000)
  /\ _send_setpoint (set_cmdVel (Twist.mk (Vector3.mk 0 0 (-12.5))
                                   (Vector3.mk 0 0 0)) session0)
     = Ok (send_setpoint 1.0 (-0.5) 0 0).
Proof. split; reflexivity. Qed.

Lemma clamp_min_max (i : Z) : Z.min (Z.max 0 i) 60000 = clamp i 0 60000.
Proof. unfold clamp. lia. Qed.

Lemma quot_div_same_clamp (a d : Z) :
  (0 < d)%Z -> clamp (Z.quot a d) 0 60000 = clamp (a / d) 0 60000.
Proof.
  intros Hd. destruct (Z.le_gt_cases 0 a) as [Ha | Ha].
  - now rewrite Z.quot_div_nonneg.
  - assert (Hq : (Z.quot a d <= 0)%Z).
    { apply Z.quot_le_upper_bound; lia. }
    assert (Hf : (a / d < 0)%Z).
    { apply Z.div_lt_upper_bound; lia. }
    unfold clamp. lia.
Qed.

(** Truncation and floor differ below zero only, where the clamp sends
    both to zero. *)
Lemma int_floor_clamp (x : float) :
  (i ← Py.int x; Ok (Z.min (Z.max 0 i) 60000))
  = (t ← Py.floor x; Ok (clamp t 0 60000)).
Proof.
  unfold Py.int, Py.floor.
  destruct (Prim2SF x) as [s | s | | s m e]; try reflexivity.
  destruct (0 <=? e)%Z eqn:He; cbn.
  - now rewrite clamp_min_max.
  - apply Z.leb_gt in He. rewrite clamp_min_max.
    f_equal. apply quot_div_same_clamp. apply Z.pow_pos_nonneg; lia.
Qed.

Lemma send_setpoint_spec (self : CrazyflieROS) :
  _send_setpoint self
  = (t ← Py.floor (vertical (_cmdVel self));
     Ok (send_setpoint (lateral (_cmdVel self) + roll_trim self)
           (longitudinal (_cmdVel self) + pitch_trim self)
           (angular_rate (_cmdVel self)) (clamp t 0 60000))).
Proof.
  unfold _send_setpoint, vertical, lateral, longitudinal, angular_rate.
  pose proof (int_floor_clamp (Vector3.z (Twist.linear (_cmdVel self)))) as H.
  destruct (Py.int _) as [i | e], (Py.floor _) as [t | e']; cbn in *;
    congruence.
Qed.

(** ** The command path *)

(** C4. For every command and every pair of trims, the setpoint the send
    path hands to the device is (lateral + roll_trim, longitudinal +
    pitch_trim, angular, clamp(floor(vertical), 0, 60000)), the call
    raising exactly when the floor does; the command callback sends that
    setpoint and nothing else unless the emergency latch is set.  With
    trims (1.0, -0.5) the command (lateral 2.0, longitudinal 3.0, angular
    0.1, vertical 100) yields (3.0, 2.5, 0.1, 100). *)
Theorem C4_setpoint_of_command :
  (forall (self : CrazyflieROS) (data : Twist.t),
      let sent :=
        t ← Py.floor (vertical data);
        Ok (send_setpoint (lateral data + roll_trim self)
              (longitudinal data + pitch_trim self)
              (angular_rate data) (clamp t 0 60000)) in
      _send_setpoint (set_cmdVel data self) = sent
      /\ snd (_cmdVelChanged data self)
         = if _isEmergency self then Ok [] else (e ← sent; Ok [e]))
  /\ snd (_cmdVelChanged command0 session0)
     = Ok [send_setpoint 3.0 2.5 0.1 100].
Proof.
  split; [ | reflexivity ].
  intros self data sent.
  assert (Hs : _send_setpoint (set_cmdVel data self) = sent).
  { rewrite send_setpoint_spec. reflexivity. }
  split; [ exact Hs | ].
  unfold _cmdVelChanged. rewrite Hs.
  change (_isEmergency (set_cmdVel data self)) with (_isEmergency self).
  destruct (_isEmergency self); cbn; [ reflexivity | ].
  destruct sent; reflexivity.
Qed.

(** The emergency latch guards the send, not the store. *)
Lemma cmdVelChanged_latched (data : Twist.t) (self : CrazyflieROS) :
  _isEmergency self = true ->
  _cmdVelChanged data self = (set_cmdVel data self, Ok []).
Proof.
  intros H. unfold _cmdVelChanged.
  change (_isEmergency (set_cmdVel data self)) with (_isEmergency self).
  now rewrite H.
Qed.

(** No callback clears the latch, and none sends while it is set. *)
Lemma dispatch_latched (cb : Callback) (self : CrazyflieROS) :
  _isEmergency self = true ->
  _isEmergency (fst (dispatch cb self)) = true
  /\ snd (dispatch cb self) = [].
Proof.
  intros H. destruct cb as [data | | | | | | ];
    try (split; [ exact H | reflexivity ]).
  - unfold dispatch. rewrite (cmdVelChanged_latched data self H).
    split; [ exact H | reflexivity ].
  - split; reflexivity.
Qed.

Lemma deliver_latched (cbs : list Callback) (self : CrazyflieROS) :
  _isEmergency self = true ->
  _isEmergency (fst (deliver cbs self)) = true
  /\ snd (deliver cbs self) = [].
Proof.
  revert self. induction cbs as [ | cb cbs IH]; intros self H; cbn.
  - split; [ exact H | reflexivity ].
  - destruct (dispatch_latched cb self H) as [H1 H2].
    destruct (dispatch cb self) as [self1 tr1]; cbn in H1, H2.
    destruct (IH self1 H1) as [H3 H4].
    destruct (deliver cbs self1) as [self2 tr2]; cbn in *.
    subst. split; [ exact H3 | reflexivity ].
Qed.

(** C1, as amended. For every command received while [_isEmergency] is
    true, the stored [_cmdVel] after the call is the incoming command
    (the store is not guarded), no [send_setpoint] results from the
    call, and the latch stays set; the same holds along any sequence of
    callbacks delivered after the latch was set. *)
Theorem C1_emergency_guards_send (self : CrazyflieROS) (data : Twist.t)
    (cbs : list Callback) :
  _isEmergency self = true ->
  _cmdVel (fst (_cmdVelChanged data self)) = data
  /\ snd (_cmdVelChanged data self) = Ok []
  /\ _isEmergency (fst (_cmdVelChanged data self)) = true
  /\ _isEmergency (fst (deliver cbs self)) = true
  /\ snd (deliver cbs self) = [].
Proof.
  intros H. rewrite (cmdVelChanged_latched data self H). cbn.
  repeat split; try assumption; now apply deliver_latched.
Qed.

Lemma C1_emergency_guards_send_witness :
  _isEmergency (_emergency session0) = true
  /\ _cmdVel (fst (_cmdVelChanged command0 (_emergency session0))) = command0
  /\ snd (_cmdVelChanged command0 (_emergency session0)) = Ok [].
Proof.
  split; [ reflexivity | ].
  destruct (C1_emergency_guards_send (_emergency session0) command0 []
              eq_refl) as (H1 & H2 & _).
  split; [ exact H1 | exact H2 ].
Defined.

(** C1, as stated, fails: after the latch is set, a command still
    replaces the stored [_cmdVel]. *)
Lemma C1_counterexample :
  ~ (forall (self : CrazyflieROS) (data : Twist.t),
        _isEmergency self = true ->
        _cmdVel (fst (_cmdVelChanged data self)) = _cmdVel self
        /\ snd (_cmdVelChanged data self) = Ok []).
Proof.
  intros H.
  destruct (H (_emergency session0) command0 eq_refl) as [H1 _].
  cbn in H1.
  apply (f_equal (fun c => PrimFloat.eqb (vertical c) 0)) in H1.
  vm_compute in H1. discriminate.
Qed.

(** ** The watchdog *)

Lemma zero_add (x : float) :
  Prim2SF x <> S754_zero true -> (0 + x)%float = x.
Proof.
  intros H. apply Prim2SF_inj. rewrite add_spec.
  change (Prim2SF 0) with (S754_zero false).
  destruct (Prim2SF x) as [[ | ] | s | | s m e]; try reflexivity.
  congruence.
Qed.

Lemma negative_zero (x : float) :
  Prim2SF x = S754_zero true -> x = (-0)%float.
Proof. intros H. apply Prim2SF_inj. rewrite H. reflexivity. Qed.

Lemma zero_add_same (x : float) : same_number (0 + x) x.
Proof.
  destruct (Prim2SF x) as [[ | ] | s | | s m e] eqn:Hx;
    try (left; apply zero_add; rewrite Hx; discriminate).
  right. rewrite (negative_zero x Hx). reflexivity.
Qed.

Lemma zero_add_nonzero (x : float) : nonzero x -> (0 + x)%float <> 0%float.
Proof.
  unfold nonzero. intros Hnz H.
  destruct (Prim2SF x) as [[ | ] | s | | s m e] eqn:Hx.
  1: { rewrite (negative_zero x Hx) in Hnz. vm_compute in Hnz. discriminate. }
  all: rewrite zero_add in H by (rewrite Hx; discriminate);
    subst x; vm_compute in Hnz; discriminate.
Qed.

(** C8. In the Connected branch with no command subscriber, one watchdog
    iteration overwrites the stored command with [Twist()] and transmits
    (0.0 + roll_trim, 0.0 + pitch_trim, 0, 0), that is (roll_trim,
    pitch_trim, 0, 0); when either trim is nonzero the setpoint on the
    wire is not the all-zero one. *)
Theorem C8_default_send_carries_trim (t : Tick) (self : CrazyflieROS) :
  is_shutdown t = false ->
  _isEmergency self = false ->
  _state self = Connected ->
  get_num_connections t = 0%nat ->
  _update_iteration t self
  = (set_cmdVel Twist.default self,
     [send_setpoint (0 + roll_trim self) (0 + pitch_trim self) 0 0;
      sleep 0.2],
     Continue)
  /\ same_number (0 + roll_trim self) (roll_trim self)
  /\ same_number (0 + pitch_trim self) (pitch_trim self)
  /\ (nonzero (roll_trim self) \/ nonzero (pitch_trim self) ->
      send_setpoint (0 + roll_trim self) (0 + pitch_trim self) 0 0
      <> send_setpoint 0 0 0 0).
Proof.
  intros Hs He Hc Hn. split; [ | split; [ | split ] ].
  - unfold _update_iteration. rewrite Hs, He, Hc, Hn. reflexivity.
  - apply zero_add_same.
  - apply zero_add_same.
  - intros [H | H] E; injection E as E1 E2.
    + exact (zero_add_nonzero _ H E1).
    + exact (zero_add_nonzero _ H E2).
Qed.

Lemma C8_default_send_carries_trim_witness :
  fst (fst (_update_iteration (mkTick false 0) (_connected "u" session0)))
  = set_cmdVel Twist.default (_connected "u" session0)
  /\ snd (fst (_update_iteration (mkTick false 0) (_connected "u" session0)))
     = [send_setpoint 1.0 (-0.5) 0 0; sleep 0.2]
  /\ send_setpoint 1.0 (-0.5) 0 0 <> send_setpoint 0 0 0 0.
Proof.
  destruct (C8_default_send_carries_trim (mkTick false 0)
              (_connected "u" session0) eq_refl eq_refl eq_refl eq_refl)
    as (H1 & _ & _ & H4).
  rewrite H1. split; [ reflexivity | split; [ reflexivity | ] ].
  apply H4. left. reflexivity.
Defined.

Lemma shutdown_sequence_shape :
  shutdown_sequence = shutdown_as_worded 0.01 0.1.
Proof. reflexivity. Qed.

Lemma shutdown_sequence_sends :
  List.filter is_send shutdown_sequence = repeat (send_setpoint 0 0 0 0) 100.
Proof. reflexivity. Qed.

(** However the periodic phase went, a closed link was preceded by the
    whole shutdown sequence. *)
Lemma update_closed_suffix (sched : list (list Callback * Tick)) :
  forall self self' tr,
    _update sched self = (self', tr, Closed) ->
    exists pre, tr = pre ++ shutdown_sequence.
Proof.
  induction sched as [ | [arrivals t] sched IH]; intros self self' tr H;
    cbn in H.
  - discriminate.
  - destruct (deliver arrivals self) as [self1 tr1].
    destruct (_update_iteration t self1) as [[self2 tr2] [ | | ex]].
    + destruct (_update sched self2) as [[self3 tr3] out] eqn:Hrec.
      injection H as <- <- ->.
      destruct (IH _ _ _ Hrec) as [pre ->].
      exists (tr1 ++ tr2 ++ pre). now rewrite <- !app_assoc.
    + injection H as <- <-.
      exists (tr1 ++ tr2). now rewrite <- app_assoc.
    + discriminate.
Qed.

(** The loop test: a requested shutdown or a set latch ends the periodic
    phase at once, with no effect of its own. *)
Lemma update_iteration_break (t : Tick) (self : CrazyflieROS) :
  is_shutdown t = true \/ _isEmergency self = true ->
  _update_iteration t self = (self, [], Break).
Proof.
  intros [H | H]; unfold _update_iteration; rewrite H;
    [ reflexivity | now destruct (is_shutdown t) ].
Qed.

Lemma update_break_head (arrivals : list Callback) (t : Tick)
    (rest : list (list Callback * Tick)) (self : CrazyflieROS) :
  is_shutdown t = true \/ _isEmergency (fst (deliver arrivals self)) = true ->
  _update ((arrivals, t) :: rest) self
  = (fst (deliver arrivals self),
     snd (deliver arrivals self) ++ shutdown_sequence, Closed).
Proof.
  intros H. cbn [_update].
  destruct (deliver arrivals self) as [self1 tr1]; cbn [fst snd] in *.
  now rewrite (update_iteration_break t self1 H).
Qed.

(** A shutdown request somewhere in the schedule is never outlived by
    the periodic phase. *)
Lemma update_shutdown_not_running (sched : list (list Callback * Tick)) :
  forall self,
    existsb (fun at_ => is_shutdown (snd at_)) sched = true ->
    snd (_update sched self) <> Running.
Proof.
  induction sched as [ | [arrivals t] sched IH]; intros self H; cbn in H.
  - discriminate.
  - cbn [_update]. destruct (deliver arrivals self) as [self1 tr1].
    destruct (is_shutdown t) eqn:Ht.
    + rewrite (update_iteration_break t self1 (or_introl Ht)). discriminate.
    + cbn in H.
      destruct (_update_iteration t self1) as [[self2 tr2] [ | | ex]];
        try discriminate.
      specialize (IH self2 H).
      destruct (_update sched self2) as [[self3 tr3] out]. exact IH.
Qed.

(** C2, as amended. Whenever the watchdog loop leaves its periodic phase
    (latch set or shutdown requested at the loop test), it sends exactly
    100 zero-setpoints (0, 0, 0, 0), each followed by a 0.01 s sleep,
    then sleeps 0.1 s (ten send intervals, not one) and only then closes
    the link; the sequence is a fixed list of calls, bounded by its
    iteration count and reading nothing back from the device. *)
Theorem C2_shutdown_sequence (arrivals : list Callback) (t : Tick)
    (rest : list (list Callback * Tick)) (self : CrazyflieROS) :
  is_shutdown t = true \/ _isEmergency (fst (deliver arrivals self)) = true ->
  _update ((arrivals, t) :: rest) self
  = (fst (deliver arrivals self),
     snd (deliver arrivals self) ++ shutdown_as_worded 0.01 0.1, Closed)
  /\ List.filter is_send (shutdown_as_worded 0.01 0.1)
     = repeat (send_setpoint 0 0 0 0) 100
  /\ (forall sched self0 self' tr,
         _update sched self0 = (self', tr, Closed) ->
         exists pre, tr = pre ++ shutdown_as_worded 0.01 0.1)
  /\ (forall sched self0,
         existsb (fun at_ => is_shutdown (snd at_)) sched = true ->
         snd (_update sched self0) <> Running).
Proof.
  intros H. rewrite <- shutdown_sequence_shape.
  split; [ now apply update_break_head | ].
  split; [ exact shutdown_sequence_sends | ].
  split; [ intros sched; apply update_closed_suffix
         | intros sched; apply update_shutdown_not_running ].
Qed.

Lemma C2_shutdown_sequence_witness :
  is_shutdown (mkTick true 1) = true
  /\ _update [([cmd_vel command0], mkTick true 1)] session0
     = (set_cmdVel command0 session0,
        send_setpoint 3.0 2.5 0.1 100 :: shutdown_as_worded 0.01 0.1,
        Closed).
Proof.
  split; [ reflexivity | ].
  destruct (C2_shutdown_sequence [cmd_vel command0] (mkTick true 1) []
              session0 (or_introl eq_refl)) as [H _].
  exact H.
Defined.

(** C2, as stated, fails: the wait before the close is not one more
    0.01 s interval. *)
Lemma C2_counterexample :
  snd (fst (_update [([], mkTick true 0)] session0))
  <> shutdown_as_worded 0.01 0.01.
Proof.
  intros H.
  apply (f_equal (fun tr => match nth 200 tr close_link with
                            | sleep d => PrimFloat.eqb d 0.01
                            | _ => true
                            end)) in H.
  vm_compute in H. discriminate.
Qed.

(** C10. The zero-setpoints of the shutdown sequence do not go through
    the trim-and-clamp path: whatever the trims and the stored command
    of the session, the sends that follow the loop are 100 times the
    literal (0, 0, 0, 0); a send through [_send_setpoint] carries the
    trims and the clamped thrust of the stored command. *)
Theorem C10_shutdown_bypasses_trim (self : CrazyflieROS) (n : nat) :
  List.filter is_send (snd (fst (_update [([], mkTick true n)] self)))
  = repeat (send_setpoint 0 0 0 0) 100
  /\ List.filter is_send
       (snd (fst (_update [([emergency], mkTick false n)] self)))
     = repeat (send_setpoint 0 0 0 0) 100
  /\ _send_setpoint self
     = (th ← Py.floor (vertical (_cmdVel self));
        Ok (send_setpoint (lateral (_cmdVel self) + roll_trim self)
              (longitudinal (_cmdVel self) + pitch_trim self)
              (angular_rate (_cmdVel self)) (clamp th 0 60000)))
  /\ _send_setpoint (set_cmdVel command0 session0)
     = Ok (send_setpoint 3.0 2.5 0.1 100).
Proof.
  split; [ | split; [ | split ] ].
  - rewrite update_break_head by (left; reflexivity).
    exact shutdown_sequence_sends.
  - rewrite update_break_head by (right; reflexivity).
    exact shutdown_sequence_sends.
  - apply send_setpoint_spec.
  - reflexivity.
Qed.

(** ** The link lifecycle *)

(** The scenario of the spec: a failed connection attempt puts the
    session back in Disconnected, and the next iteration asks the link
    to open again. *)
Example reconnect_after_failure :
  _update [([], mkTick false 0);
           ([connection_failed "radio://0/80/250K" "timeout"],
            mkTick false 0)] session0
  = (set_state Connecting session0,
     [open_link "radio://0/80/250K"; open_link "radio://0/80/250K"],
     Running).
Proof. reflexivity. Qed.

(** A session that connects, flies on a command, then is stopped. *)
Example connect_fly_stop :
  _update [([], mkTick false 1);
           ([connected "radio://0/80/250K"; cmd_vel command0],
            mkTick false 1);
           ([emergency], mkTick false 1)] session0
  = (_emergency (set_cmdVel command0 (set_state Connected session0)),
     [open_link "radio://0/80/250K";
      send_setpoint 3.0 2.5 0.1 100;
      send_setpoint 3.0 2.5 0.1 100; sleep 0.2]
     ++ shutdown_sequence,
     Closed).
Proof. reflexivity. Qed.

Lemma cmdVelChanged_state (data : Twist.t) (self : CrazyflieROS) :
  _state (fst (_cmdVelChanged data self)) = _state self.
Proof.
  unfold _cmdVelChanged.
  destruct (negb (_isEmergency (set_cmdVel data self))); [ | reflexivity ].
  destruct (_send_setpoint (set_cmdVel data self)); reflexivity.
Qed.

Lemma dispatch_cmd_vel_state (data : Twist.t) (self : CrazyflieROS) :
  _state (fst (dispatch (cmd_vel data) self)) = _state self.
Proof.
  unfold dispatch. rewrite <- (cmdVelChanged_state data self).
  destruct (_cmdVelChanged data self) as [self' [tr | ex]]; reflexivity.
Qed.

(** What one watchdog iteration does to the lifecycle state. *)
Lemma update_iteration_state (t : Tick) (self : CrazyflieROS) :
  _state (fst (react (watchdog_tick t) self)) <> _state self ->
  _state self = Disconnected
  /\ react (watchdog_tick t) self
     = (set_state Connecting self, [open_link (link_uri self)]).
Proof.
  unfold react, _update_iteration.
  destruct (is_shutdown t); [ intros H; now elim H | ].
  destruct (_isEmergency self); [ intros H; now elim H | ].
  destruct (_state self) eqn:Hst; cbn.
  - intros _. split; reflexivity.
  - intros H. now elim H.
  - destruct (get_num_connections t);
      destruct (_send_setpoint _); cbn; rewrite ?Hst; intros H; now elim H.
Qed.

(** The state every stimulus leaves behind, as a function of the state
    before: no handler tests the state it overwrites. *)
Lemma react_state (self : CrazyflieROS) (st : Stimulus) :
  _state (fst (react st self))
  = match st with
    | incoming (connected _) => Connected
    | incoming (connection_failed _ _)
    | incoming (connection_lost _ _)
    | incoming (disconnected _) => Disconnected
    | incoming (link_quality_updated _)
    | incoming (cmd_vel _)
    | incoming emergency => _state self
    | watchdog_tick t =>
        if is_shutdown t || _isEmergency self then _state self
        else match _state self with
             | Disconnected => Connecting
             | Connecting => Connecting
             | Connected => Connected
             end
    end.
Proof.
  destruct st as [[data | | uri | uri msg | uri msg | uri | p] | t];
    try reflexivity.
  - apply dispatch_cmd_vel_state.
  - unfold react, _update_iteration.
    destruct (is_shutdown t); [ reflexivity | ].
    destruct (_isEmergency self); [ reflexivity | ]. cbn [orb].
    destruct (_state self) eqn:Hst; [ reflexivity | exact Hst | ].
    destruct (get_num_connections t); destruct (_send_setpoint _); cbn;
      exact Hst.
Qed.

(** C3, as amended. The lifecycle state changes only as follows: a
    watchdog tick moves it from Disconnected only, to Connecting, issuing
    the link-open request; the connected event sets Connected, and the
    connection-failed, connection-lost and disconnected events set
    Disconnected, from whatever state the session is in (no handler
    tests the current state); a link-quality update, a command or an
    emergency request never changes it.  Every row of the transition
    table is taken by the code, the tick row when neither shutdown nor
    emergency is pending.

    The first part gives the state after every stimulus outright, in
    every state before: in particular the connected event received in
    Disconnected or in Connected yields Connected, and a disconnected or
    connection-lost event received in Connecting yields Disconnected,
    none of which is a row of the table. *)
Theorem C3_lifecycle_transitions (self : CrazyflieROS) (st : Stimulus) :
  _state (fst (react st self))
  = match st with
    | incoming (connected _) => Connected
    | incoming (connection_failed _ _)
    | incoming (connection_lost _ _)
    | incoming (disconnected _) => Disconnected
    | incoming (link_quality_updated _)
    | incoming (cmd_vel _)
    | incoming emergency => _state self
    | watchdog_tick t =>
        if is_shutdown t || _isEmergency self then _state self
        else match _state self with
             | Disconnected => Connecting
             | Connecting => Connecting
             | Connected => Connected
             end
    end
  /\ (_state (fst (react st self)) <> _state self ->
      match st with
      | watchdog_tick _ =>
          _state self = Disconnected
          /\ react st self
             = (set_state Connecting self, [open_link (link_uri self)])
      | incoming (connected _) =>
          _state (fst (react st self)) = Connected
      | incoming (connection_failed _ _)
      | incoming (connection_lost _ _)
      | incoming (disconnected _) =>
          _state (fst (react st self)) = Disconnected
      | incoming (link_quality_updated _)
      | incoming (cmd_vel _)
      | incoming emergency => False
      end)
  /\ (forall b : Lifecycle,
         in_table (_state self) st b = true ->
         (forall t, st = watchdog_tick t ->
                    is_shutdown t = false /\ _isEmergency self = false) ->
         _state (fst (react st self)) = b).
Proof.
  split; [ apply react_state | ].
  split.
  - destruct st as [[data | | uri | uri msg | uri msg | uri | p] | t];
      try (intros _; reflexivity);
      try (intros H; now elim H).
    + intros H. elim H. apply dispatch_cmd_vel_state.
    + apply update_iteration_state.
  - intros b Hb Hguard.
    destruct st as [[data | | uri | uri msg | uri msg | uri | p] | t];
      destruct (_state self) eqn:Hst, b; cbn in Hb; try discriminate;
      try reflexivity.
    destruct (Hguard t eq_refl) as [Hs He].
    unfold react, _update_iteration. rewrite Hs, He, Hst. reflexivity.
Qed.

Lemma C3_lifecycle_transitions_witness :
  _state (fst (react (watchdog_tick (mkTick false 0)) session0))
  <> _state session0
  /\ react (watchdog_tick (mkTick false 0)) session0
     = (set_state Connecting session0, [open_link "radio://0/80/250K"])
  /\ _state (fst (react (incoming (connected "radio://0/80/250K"))
                    (set_state Connecting session0))) = Connected
  /\ _state (fst (react (incoming (connected "radio://0/80/250K"))
                    session0)) = Connected
  /\ _state (fst (react (incoming (disconnected "radio://0/80/250K"))
                    (set_state Connecting session0))) = Disconnected.
Proof.
  split; [ discriminate | ].
  split; [ | split; [ | split ] ].
  - destruct (C3_lifecycle_transitions session0
                (watchdog_tick (mkTick false 0))) as (_ & H & _).
    destruct H as [_ H]; [ discriminate | exact H ].
  - destruct (C3_lifecycle_transitions (set_state Connecting session0)
                (incoming (connected "radio://0/80/250K"))) as (_ & _ & H).
    apply H; [ reflexivity | intros t Ht; discriminate Ht ].
  - exact (proj1 (C3_lifecycle_transitions session0
                    (incoming (connected "radio://0/80/250K")))).
  - exact (proj1 (C3_lifecycle_transitions (set_state Connecting session0)
                    (incoming (disconnected "radio://0/80/250K")))).
Defined.

(** C3, as stated, fails: in the initial state Disconnected the
    connected event, which is no watchdog tick, moves the state to
    Connected, a transition outside the table. *)
Lemma C3_counterexample :
  ~ (forall (self : CrazyflieROS) (st : Stimulus),
        _state (fst (react st self)) <> _state self ->
        in_table (_state self) st (_state (fst (react st self))) = true).
Proof.
  intros H.
  specialize (H session0 (incoming (connected "radio://0/80/250K"))).
  cbn in H. assert (E := H ltac:(discriminate)). discriminate E.
Qed.

(** ** Telemetry *)

(** The two conversions are linear in the sample: every published
    component is the device reading times a fixed factor. *)
Lemma log_data_imu_scales (self : CrazyflieROS) (now : Z)
    (data : gmap string float) (m : Imu.t) :
  _log_data_imu self now data = Ok m ->
  exists gx gy gz ax ay az,
    data !! "gyro.x" = Some gx /\ data !! "gyro.y" = Some gy
    /\ data !! "gyro.z" = Some gz /\ data !! "acc.x" = Some ax
    /\ data !! "acc.y" = Some ay /\ data !! "acc.z" = Some az
    /\ Imu.angular_velocity m
       = Vector3.mk (gx * (Py.pi / 180)) (gy * (Py.pi / 180))
           (gz * (Py.pi / 180))
    /\ Imu.linear_acceleration m
       = Vector3.mk (ax * 9.81) (ay * 9.81) (az * 9.81).
Proof.
  unfold _log_data_imu, getitem, mbind, result_bind, bind.
  destruct (data !! "gyro.x") as [gx | ]; [ | discriminate ].
  destruct (data !! "gyro.y") as [gy | ]; [ | discriminate ].
  destruct (data !! "gyro.z") as [gz | ]; [ | discriminate ].
  destruct (data !! "acc.x") as [ax | ]; [ | discriminate ].
  destruct (data !! "acc.y") as [ay | ]; [ | discriminate ].
  destruct (data !! "acc.z") as [az | ]; [ | discriminate ].
  intros [= <-]. exists gx, gy, gz, ax, ay, az. cbn.
  repeat split; reflexivity.
Qed.

(** C5, on the code. A gyroscope reading of 180 is published as pi: the
    angular-rate part of the claim holds.  An accelerometer reading of
    1000, which the source comment takes to be milli-g, is published as
    9810.0, not as a value near 9.81: the factor 9.81 is applied to the
    raw reading, and the division by 1000 that the comment's unit asks
    for is missing. *)
Theorem C5_imu_sample_conversion :
  (Imu.angular_velocity <$> _log_data_imu session0 0 (imu_sample 180 1000))
  = Ok (Vector3.mk Py.pi Py.pi Py.pi)
  /\ (Imu.linear_acceleration
        <$> _log_data_imu session0 0 (imu_sample 180 1000))
     = Ok (Vector3.mk 9810 9810 9810)
  /\ approx 9810 9.81 0.01 = false
  /\ approx (1000 / 1000 * 9.81) 9.81 0.01 = true.
Proof. vm_compute. repeat split; reflexivity. Qed.

(** ** Parameter synchronisation *)

Lemma replace_inverse (old new : ascii) (s : string) :
  Py.contains new s = false ->
  Py.replace new old (Py.replace old new s) = s.
Proof.
  induction s as [ | c s IH]; cbn; intros H; [ reflexivity | ].
  apply orb_false_elim in H as [Hc Hs].
  rewrite (IH Hs). f_equal.
  destruct (Ascii.eqb c old) eqn:E.
  - apply Ascii.eqb_eq in E. subst c. now rewrite Ascii.eqb_refl.
  - now rewrite Hc.
Qed.

Section ParamSyncFacts.

Context {value : Type}.
Variable py_str : value -> string.
Variable set_value_raises : string -> option exn.
Variable self : CrazyflieROS.
Variable store : gmap string value.

Let loop := _update_params_loop py_str set_value_raises self store.
Let fails := entry_fails set_value_raises self store.
Let push := push_of py_str self store.

Lemma entry_passes (p : string) :
  fails p = false ->
  exists v,
    store !! ("/" +:+ tf_prefix self +:+ "/" +:+ p) = Some v
    /\ set_value_raises (Py.replace "/" "." p) = None
    /\ push p = Some (set_value (Py.replace "/" "." p) (text (py_str v))).
Proof.
  unfold fails, entry_fails, has_param, push, push_of. intros H.
  apply orb_false_elim in H as [H1 H2].
  apply negb_false_iff, bool_decide_eq_true in H1 as [v Hv].
  apply bool_decide_eq_false in H2.
  exists v. rewrite Hv. split; [ reflexivity | split; [ | reflexivity ] ].
  destruct (set_value_raises _) as [e | ]; [ | reflexivity ].
  exfalso. apply H2. now exists e.
Qed.

(** Entries the loop gets through are pushed, one call each, in the
    order of the request. *)
Lemma update_params_loop_app (pre rest : list string) :
  Forall (fun q => fails q = false) pre ->
  loop (pre ++ rest) = (omap push pre ++ fst (loop rest), snd (loop rest)).
Proof.
  induction 1 as [ | q pre Hq Hpre IH]; cbn.
  - now destruct (loop rest).
  - destruct (entry_passes q Hq) as (v & Hv & Hdev & Hpush).
    fold loop. rewrite IH.
    unfold get_param, do_set_value. rewrite Hv, Hdev, Hpush.
    reflexivity.
Qed.

(** A failing entry ends the loop on its exception, before any push
    for it or for what follows it. *)
Lemma update_params_loop_fail (p : string) (post : list string) :
  fails p = true ->
  exists e, loop (p :: post) = ([], Raise e).
Proof.
  unfold fails, entry_fails, has_param. intros H. cbn.
  unfold get_param, do_set_value.
  destruct (store !! _) as [v | ] eqn:Hv; [ | eauto ].
  destruct (set_value_raises _) as [e | ] eqn:He; [ eauto | ].
  exfalso. apply orb_true_iff in H as [H | H].
  - apply negb_true_iff, bool_decide_eq_false in H. apply H. eauto.
  - apply bool_decide_eq_true in H as [e He']. discriminate.
Qed.

Lemma update_params_loop_missing (p : string) (post : list string) :
  store !! ("/" +:+ tf_prefix self +:+ "/" +:+ p) = None ->
  loop (p :: post)
  = ([], Raise (KeyError ("/" +:+ tf_prefix self +:+ "/" +:+ p))).
Proof. intros H. cbn. unfold get_param. now rewrite H. Qed.

(** Whatever the request, each call that reached the device is a
    [set_value] of the text [str(v)] of the store's value for one of
    the requested paths. *)
Lemma update_params_loop_pushes (req : list string) :
  Forall (fun c => exists p v,
              p ∈ req
              /\ store !! ("/" +:+ tf_prefix self +:+ "/" +:+ p) = Some v
              /\ c = set_value (Py.replace "/" "." p) (text (py_str v)))
    (fst (loop req)).
Proof.
  induction req as [ | p req IH]; cbn; [ constructor | ].
  unfold get_param, do_set_value.
  destruct (store !! _) as [v | ] eqn:Hv; [ | constructor ].
  destruct (set_value_raises _) as [e | ]; [ constructor | ].
  fold loop. destruct (loop req) as [calls r]. cbn in *. constructor.
  - exists p, v. split; [ left | split; [ exact Hv | reflexivity ] ].
  - eapply Forall_impl; [ exact IH | ].
    intros c (q & w & Hq & Hw & ->). exists q, w.
    split; [ now right | split; [ exact Hw | reflexivity ] ].
Qed.

Lemma split_at_first_failure (req : list string) :
  existsb fails req = true ->
  exists pre p post,
    req = pre ++ p :: post
    /\ Forall (fun q => fails q = false) pre /\ fails p = true.
Proof.
  induction req as [ | q req IH]; cbn; [ discriminate | ].
  destruct (fails q) eqn:Hq; cbn.
  - intros _. exists [], q, req. repeat split; [ constructor | exact Hq ].
  - intros H. destruct (IH H) as (pre & p & post & -> & Hpre & Hp).
    exists (q :: pre), p, post. repeat split; [ | exact Hp ].
    now constructor.
Qed.

End ParamSyncFacts.

Lemma omap_push_length {value : Type} (py_str : value -> string)
    (set_value_raises : string -> option exn) (self : CrazyflieROS)
    (store : gmap string value) (pre : list string) :
  Forall (fun q => entry_fails set_value_raises self store q = false) pre ->
  length (omap (push_of py_str self store) pre) = length pre.
Proof.
  induction 1 as [ | q pre Hq Hpre IH]; cbn; [ reflexivity | ].
  destruct (entry_passes py_str set_value_raises self store q Hq)
    as (v & _ & _ & Hpush).
  rewrite Hpush. cbn. now rewrite IH.
Qed.

Lemma missing_entry_fails {value : Type}
    (set_value_raises : string -> option exn) (self : CrazyflieROS)
    (store : gmap string value) (req : list string) (p : string) :
  p ∈ req ->
  store !! ("/" +:+ tf_prefix self +:+ "/" +:+ p) = None ->
  existsb (entry_fails set_value_raises self store) req = true.
Proof.
  intros Hin Hmiss. induction Hin as [p req | p q req Hin IH]; cbn.
  - unfold entry_fails at 1, has_param. rewrite Hmiss.
    rewrite bool_decide_eq_false_2 by (intros [v Hv]; discriminate).
    reflexivity.
  - rewrite (IH Hmiss). apply orb_true_r.
Qed.

(** C6. The identifier mapping is the delimiter swap in both directions:
    a device notification for [name] writes its value at the path
    [tf_prefix/name] with every '.' replaced by '/', and an update
    request for the path [p] pushes to the identifier [p] with every '/'
    replaced by '.' the (stringified) value the store holds for [p]; the
    two swaps undo each other on identifiers that do not contain the
    other delimiter; "flightmode/posSet" maps to "flightmode.posSet". *)
Theorem C6_param_identifier_mapping {value : Type}
    (py_str : value -> string) (set_value_raises : string -> option exn)
    (self : CrazyflieROS) (store : gmap string value)
    (name p : string) (v w : value) :
  Py.contains "/" name = false ->
  Py.contains "." p = false ->
  store !! ("/" +:+ tf_prefix self +:+ "/" +:+ p) = Some w ->
  set_value_raises (Py.replace "/" "." p) = None ->
  _param_callback self name v store
  = <[tf_prefix self +:+ "/" +:+ Py.replace "." "/" name := v]> store
  /\ _update_params py_str set_value_raises self store [p]
     = ([set_value (Py.replace "/" "." p) (text (py_str w))],
        Ok mkUpdateParamsResponse)
  /\ Py.replace "/" "." (Py.replace "." "/" name) = name
  /\ Py.replace "." "/" (Py.replace "/" "." p) = p
  /\ Py.replace "/" "." "flightmode/posSet" = "flightmode.posSet"
  /\ Py.replace "." "/" "flightmode.posSet" = "flightmode/posSet".
Proof.
  intros Hname Hp Hw Hdev.
  split; [ reflexivity | ].
  split.
  { unfold _update_params. cbn. unfold get_param, do_set_value.
    rewrite Hw, Hdev. reflexivity. }
  split; [ now apply replace_inverse | ].
  split; [ now apply replace_inverse | ].
  split; reflexivity.
Qed.

Lemma C6_param_identifier_mapping_witness :
  _update_params str_Z accepts_all session0 store0 ["flightmode/posSet"]
  = ([set_value "flightmode.posSet" (text "1")], Ok mkUpdateParamsResponse)
  /\ _param_callback session0 "flightmode.posSet" 1%Z ∅
     = {[ "cf/flightmode/posSet" := 1%Z ]}.
Proof.
  destruct (C6_param_identifier_mapping str_Z accepts_all session0 store0
              "flightmode.posSet" "flightmode/posSet" 1%Z 1%Z
              eq_refl eq_refl eq_refl eq_refl) as (_ & H & _).
  split; [ exact H | reflexivity ].
Defined.

(** C7, as amended. The entries of an update request are pushed one by
    one, in order, with no transaction around them: when an entry fails
    (its store read or its push raises), the entries pushed before it
    stay pushed, one call each, but the exception ends the handler, so
    no entry after the failing one is pushed and no response is
    returned. *)
Theorem C7_update_params_stops_at_failure {value : Type}
    (py_str : value -> string) (set_value_raises : string -> option exn)
    (self : CrazyflieROS) (store : gmap string value)
    (pre : list string) (p : string) (post : list string) :
  Forall (fun q => entry_fails set_value_raises self store q = false) pre ->
  entry_fails set_value_raises self store p = true ->
  fst (_update_params py_str set_value_raises self store (pre ++ p :: post))
  = omap (push_of py_str self store) pre
  /\ length (omap (push_of py_str self store) pre) = length pre
  /\ (exists e,
         snd (_update_params py_str set_value_raises self store
                (pre ++ p :: post)) = Raise e)
  /\ _update_params py_str set_value_raises self store pre
     = (omap (push_of py_str self store) pre, Ok mkUpdateParamsResponse).
Proof.
  intros Hpre Hp.
  destruct (update_params_loop_fail py_str set_value_raises self store
              p post Hp) as [e He].
  pose proof (update_params_loop_app py_str set_value_raises self store
                pre (p :: post) Hpre) as Happ.
  pose proof (update_params_loop_app py_str set_value_raises self store
                pre [] Hpre) as Hnil.
  rewrite He in Happ. cbn in Happ, Hnil. rewrite !app_nil_r in *.
  unfold _update_params. rewrite Happ. rewrite Hnil.
  split; [ reflexivity | ].
  split; [ now apply (omap_push_length py_str set_value_raises) | ].
  split; [ now exists e | reflexivity ].
Qed.

Lemma C7_update_params_stops_at_failure_witness :
  entry_fails accepts_all session0 store0 "flightmode/althold" = true
  /\ fst (_update_params str_Z accepts_all session0 store0
            ["flightmode/posSet"; "flightmode/althold"; "flightmode/posSet"])
     = [set_value "flightmode.posSet" (text "1")]
  /\ exists e,
       snd (_update_params str_Z accepts_all session0 store0
              ["flightmode/posSet"; "flightmode/althold"; "flightmode/posSet"])
       = Raise e.
Proof.
  split; [ reflexivity | ].
  pose proof (C7_update_params_stops_at_failure str_Z accepts_all session0
                store0 ["flightmode/posSet"] "flightmode/althold"
                ["flightmode/posSet"]
                ltac:(repeat constructor) eq_refl)
    as (H1 & _ & H3 & _).
  split; [ exact H1 | exact H3 ].
Defined.

(** C7, as stated, fails: after an entry whose read fails, an entry that
    would itself succeed is not pushed. *)
Lemma C7_counterexample :
  ~ (forall (req : list string) (p : string),
        p ∈ req ->
        entry_fails accepts_all session0 store0 p = false ->
        exists c,
          push_of str_Z session0 store0 p = Some c
          /\ c ∈ fst (_update_params str_Z accepts_all session0 store0 req)).
Proof.
  intros H.
  destruct (H ["flightmode/althold"; "flightmode/posSet"] "flightmode/posSet")
    as (c & _ & Hc).
  - right. left.
  - reflexivity.
  - vm_compute in Hc. now apply elem_of_nil in Hc.
Qed.

(** C9. The update handler reads the store with no existence test: for
    every request that contains a path the store has no value for, that
    read raises [KeyError] and the handler ends on an exception instead
    of returning its response (on the [KeyError] of such a path, when the
    device refuses no push); and every call that did reach the device
    carries [str(v)], the text of the store's value. *)
Theorem C9_update_params_missing_path {value : Type}
    (py_str : value -> string) (set_value_raises : string -> option exn)
    (self : CrazyflieROS) (store : gmap string value)
    (req : list string) (p : string) :
  p ∈ req ->
  store !! ("/" +:+ tf_prefix self +:+ "/" +:+ p) = None ->
  get_param store ("/" +:+ tf_prefix self +:+ "/" +:+ p)
  = Raise (KeyError ("/" +:+ tf_prefix self +:+ "/" +:+ p))
  /\ (exists e,
         snd (_update_params py_str set_value_raises self store req)
         = Raise e)
  /\ ((forall cf_param, set_value_raises cf_param = None) ->
      exists q,
        q ∈ req
        /\ store !! ("/" +:+ tf_prefix self +:+ "/" +:+ q) = None
        /\ snd (_update_params py_str set_value_raises self store req)
           = Raise (KeyError ("/" +:+ tf_prefix self +:+ "/" +:+ q)))
  /\ Forall (fun c => exists q v,
                 q ∈ req
                 /\ store !! ("/" +:+ tf_prefix self +:+ "/" +:+ q) = Some v
                 /\ c = set_value (Py.replace "/" "." q) (text (py_str v)))
       (fst (_update_params py_str set_value_raises self store req)).
Proof.
  intros Hin Hmiss.
  split; [ unfold get_param; now rewrite Hmiss | ].
  destruct (split_at_first_failure set_value_raises self store req
              (missing_entry_fails set_value_raises self store req p
                 Hin Hmiss))
    as (pre & q & post & -> & Hpre & Hq).
  pose proof (update_params_loop_app py_str set_value_raises self store
                pre (q :: post) Hpre) as Happ.
  split; [ | split ].
  - destruct (update_params_loop_fail py_str set_value_raises self store
                q post Hq) as [e He].
    rewrite He in Happ. unfold _update_params. rewrite Happ.
    now exists e.
  - intros Hdev. exists q.
    assert (Hqm : store !! ("/" +:+ tf_prefix self +:+ "/" +:+ q) = None).
    { unfold entry_fails, has_param in Hq. rewrite Hdev in Hq.
      destruct (store !! ("/" +:+ tf_prefix self +:+ "/" +:+ q)) as [v | ];
        [ | reflexivity ].
      rewrite bool_decide_eq_true_2 in Hq by eauto.
      rewrite bool_decide_eq_false_2 in Hq by (intros [e He]; discriminate).
      discriminate. }
    split; [ apply elem_of_app; right; left | split; [ exact Hqm | ] ].
    rewrite (update_params_loop_missing py_str set_value_raises self store
               q post Hqm) in Happ.
    unfold _update_params. rewrite Happ. reflexivity.
  - pose proof (update_params_loop_pushes py_str set_value_raises self
                  store (pre ++ q :: post)) as Hall.
    unfold _update_params.
    destruct (_update_params_loop _ _ _ _ _) as [calls r]. exact Hall.
Qed.

Lemma C9_update_params_missing_path_witness :
  store0 !! "/cf/flightmode/althold" = None
  /\ (exists e,
        snd (_update_params str_Z accepts_all session0 store0
               ["flightmode/posSet"; "flightmode/althold"]) = Raise e)
  /\ Forall (fun c => is_text_push c = true)
       (fst (_update_params str_Z accepts_all session0 store0
               ["flightmode/posSet"; "flightmode/althold"])).
Proof.
  split; [ reflexivity | ].
  pose proof (C9_update_params_missing_path str_Z accepts_all session0
                store0 ["flightmode/posSet"; "flightmode/althold"]
                "flightmode/althold"
                ltac:(right; left) eq_refl)
    as (_ & H2 & _ & H4).
  split; [ exact H2 | ].
  eapply Forall_impl; [ exact H4 | ].
  intros c (q & v & _ & _ & ->). reflexivity.
Defined.

(** * Further properties of the session *)

(** ** Runs of the watchdog *)

Lemma send_setpoint_thrust (self : CrazyflieROS) (e : Effect) :
  _send_setpoint self = Ok e ->
  exists roll pitch yawrate thrust,
    e = send_setpoint roll pitch yawrate thrust
    /\ (0 <= thrust <= 60000)%Z.
Proof.
  unfold _send_setpoint. destruct (Py.int _) as [i | ex]; [ | discriminate ].
  intros [= <-]. do 4 eexists. split; [ reflexivity | lia ].
Qed.

Lemma send_setpoint_periodic (self other : CrazyflieROS) (e : Effect) :
  _send_setpoint self = Ok e -> periodic other e.
Proof.
  intros H. destruct (send_setpoint_thrust self e H)
    as (r & p & y & th & -> & Hth). exact Hth.
Qed.

Lemma periodic_same_config (a b : CrazyflieROS) (e : Effect) :
  same_config a b -> periodic b e -> periodic a e.
Proof.
  intros (Huri & _) H. destruct e; cbn in *; try assumption. congruence.
Qed.

Lemma same_config_refl (a : CrazyflieROS) : same_config a a.
Proof. repeat split. Qed.

Lemma same_config_trans (a b c : CrazyflieROS) :
  same_config a b -> same_config b c -> same_config a c.
Proof.
  intros (H1 & H2 & H3 & H4 & H5) (K1 & K2 & K3 & K4 & K5).
  repeat split; congruence.
Qed.

Lemma dispatch_run (cb : Callback) (self : CrazyflieROS) :
  same_config (fst (dispatch cb self)) self
  /\ Forall (periodic self) (snd (dispatch cb self)).
Proof.
  destruct cb as [data | | uri | uri msg | uri msg | uri | p];
    try (split; [ now repeat split | constructor ]).
  unfold dispatch, _cmdVelChanged.
  destruct (negb _).
  - destruct (_send_setpoint _) as [e | ex] eqn:He; cbn.
    + split; [ now repeat split | ].
      constructor; [ | constructor ].
      exact (send_setpoint_periodic _ self e He).
    + split; [ now repeat split | constructor ].
  - split; [ now repeat split | constructor ].
Qed.

Lemma deliver_run (cbs : list Callback) :
  forall self,
    same_config (fst (deliver cbs self)) self
    /\ Forall (periodic self) (snd (deliver cbs self)).
Proof.
  induction cbs as [ | cb cbs IH]; intros self; cbn.
  - split; [ apply same_config_refl | constructor ].
  - destruct (dispatch_run cb self) as [Hc Hp].
    destruct (dispatch cb self) as [self1 tr1]; cbn in Hc, Hp.
    destruct (IH self1) as [Hc' Hp'].
    destruct (deliver cbs self1) as [self2 tr2]; cbn in *.
    split; [ exact (same_config_trans _ _ _ Hc' Hc) | ].
    apply Forall_app. split; [ exact Hp | ].
    eapply Forall_impl; [ exact Hp' | ].
    intros e. apply periodic_same_config.
    destruct Hc as (H1 & H2 & H3 & H4 & H5). repeat split; congruence.
Qed.

Lemma update_iteration_run (t : Tick) (self : CrazyflieROS) :
  same_config (fst (fst (_update_iteration t self))) self
  /\ Forall (periodic self) (snd (fst (_update_iteration t self))).
Proof.
  unfold _update_iteration.
  destruct (is_shutdown t);
    [ split; [ now repeat split | constructor ] | ].
  destruct (_isEmergency self);
    [ split; [ now repeat split | constructor ] | ].
  destruct (_state self).
  - cbn. split; [ now repeat split | ].
    constructor; [ reflexivity | constructor ].
  - cbn. split; [ now repeat split | ].
    constructor; [ now right | constructor ].
  - set (self' := if (0 <? get_num_connections t)%nat then self
                  else set_cmdVel Twist.default self).
    assert (Hc : same_config self' self).
    { subst self'. destruct (0 <? _)%nat; now repeat split. }
    destruct (_send_setpoint self') as [e | ex] eqn:He; cbn.
    + split; [ exact Hc | ].
      constructor; [ exact (send_setpoint_periodic _ self e He) | ].
      constructor; [ now left | constructor ].
    + split; [ exact Hc | constructor ].
Qed.

(** The shape of every run: effects of the periodic phase, followed by
    the shutdown sequence exactly when the loop was left. *)
Lemma update_run (sched : list (list Callback * Tick)) :
  forall self,
    same_config (fst (fst (_update sched self))) self
    /\ exists pre,
        Forall (periodic self) pre
        /\ snd (fst (_update sched self))
           = pre ++ match snd (_update sched self) with
                    | Closed => shutdown_sequence
                    | _ => []
                    end.
Proof.
  induction sched as [ | [arrivals t] sched IH]; intros self; cbn.
  - split; [ apply same_config_refl | ]. exists []. split; [ constructor | reflexivity ].
  - destruct (deliver_run arrivals self) as [Hc1 Hp1].
    destruct (deliver arrivals self) as [self1 tr1]; cbn in Hc1, Hp1.
    destruct (update_iteration_run t self1) as [Hc2 Hp2].
    destruct (_update_iteration t self1) as [[self2 tr2] ctl];
      cbn in Hc2, Hp2.
    assert (Hp2' : Forall (periodic self) tr2).
    { eapply Forall_impl; [ exact Hp2 | ].
      intros e. apply periodic_same_config.
      destruct Hc1 as (H1 & H2 & H3 & H4 & H5). repeat split; congruence. }
    assert (Hc12 : same_config self2 self)
      by exact (same_config_trans _ _ _ Hc2 Hc1).
    destruct ctl as [ | | ex]; cbn.
    + destruct (IH self2) as [Hc3 (pre & Hpre & Htr)].
      destruct (_update sched self2) as [[self3 tr3] out]; cbn in *.
      split; [ exact (same_config_trans _ _ _ Hc3 Hc12) | ].
      exists (tr1 ++ tr2 ++ pre). split.
      * apply Forall_app. split; [ exact Hp1 | ].
        apply Forall_app. split; [ exact Hp2' | ].
        eapply Forall_impl; [ exact Hpre | ].
        intros e. apply periodic_same_config.
        destruct Hc12 as (H1 & H2 & H3 & H4 & H5). repeat split; congruence.
      * rewrite Htr. now rewrite <- !app_assoc.
    + split; [ exact Hc12 | ].
      exists (tr1 ++ tr2). split.
      * apply Forall_app. split; assumption.
      * now rewrite <- !app_assoc.
    + split; [ exact Hc12 | ].
      exists (tr1 ++ tr2). split.
      * apply Forall_app. split; assumption.
      * now rewrite app_nil_r.
Qed.

Lemma periodic_thrust (self : CrazyflieROS) (e : Effect) :
  periodic self e -> thrust_in_range e.
Proof. destruct e; cbn; tauto. Qed.

Lemma periodic_not_close (self : CrazyflieROS) (pre : list Effect) :
  Forall (periodic self) pre -> List.filter is_close pre = [].
Proof.
  induction 1 as [ | e pre He _ IH]; [ reflexivity | ].
  destruct e; cbn in *; try assumption. contradiction.
Qed.

Lemma shutdown_sequence_thrust : Forall thrust_in_range shutdown_sequence.
Proof.
  unfold shutdown_sequence. apply Forall_app. split.
  - generalize (seq 0 100). intros l.
    induction l as [ | i l IH]; cbn; [ constructor | ].
    constructor; [ cbn; lia | ]. constructor; [ exact I | exact IH ].
  - repeat constructor.
Qed.

(** X1. Whatever callbacks arrive and however the loop ends, every
    setpoint a run hands to the commander has its thrust within
    0..60000. *)
Theorem X1_run_thrust_in_range (sched : list (list Callback * Tick))
    (self : CrazyflieROS) :
  Forall thrust_in_range (snd (fst (_update sched self))).
Proof.
  destruct (update_run sched self) as [_ (pre & Hpre & ->)].
  apply Forall_app. split.
  - eapply Forall_impl; [ exact Hpre | ]. apply periodic_thrust.
  - destruct (snd (_update sched self));
      [ constructor | apply shutdown_sequence_thrust | constructor ].
Qed.

(** X2. A run closes the link exactly when its loop was left by the
    loop test: then [close_link] is the last call and the only close;
    a run that is still looping, or whose thread died on an exception,
    never closes the link. *)
Theorem X2_run_closes_link_once (sched : list (list Callback * Tick))
    (self : CrazyflieROS) :
  match snd (_update sched self) with
  | Closed =>
      last (snd (fst (_update sched self))) = Some close_link
      /\ List.filter is_close (snd (fst (_update sched self)))
         = [close_link]
  | Running | Died _ =>
      List.filter is_close (snd (fst (_update sched self))) = []
  end.
Proof.
  destruct (update_run sched self) as [_ (pre & Hpre & ->)].
  pose proof (periodic_not_close self pre Hpre) as Hno.
  destruct (snd (_update sched self)).
  - now rewrite app_nil_r.
  - split.
    + rewrite shutdown_sequence_shape. unfold shutdown_as_worded.
      change [sleep 0.1; close_link] with ([sleep 0.1] ++ [close_link]).
      rewrite !app_assoc. apply last_snoc.
    + rewrite List.filter_app, Hno. reflexivity.
  - now rewrite app_nil_r.
Qed.

(** X3. No callback and no watchdog iteration changes the address, the
    prefix, the trims or the logging flag a session was created with,
    and every link-open request of a run carries that address. *)
Theorem X3_run_keeps_config (sched : list (list Callback * Tick))
    (self : CrazyflieROS) :
  same_config (fst (fst (_update sched self))) self
  /\ Forall (fun e => match e with
                      | open_link uri => uri = link_uri self
                      | _ => True
                      end) (snd (fst (_update sched self))).
Proof.
  destruct (update_run sched self) as [Hc (pre & Hpre & ->)].
  split; [ exact Hc | ].
  apply Forall_app. split.
  - eapply Forall_impl; [ exact Hpre | ].
    intros e He. destruct e; try exact I. exact He.
  - destruct (snd (_update sched self)); [ constructor | | constructor ].
    unfold shutdown_sequence. apply Forall_app. split; [ | repeat constructor ].
    generalize (seq 0 100). intros l.
    induction l as [ | i l IH]; cbn; repeat constructor. exact IH.
Qed.

(** X4. With the emergency latch set, a run does nothing but shut down:
    whatever callbacks arrive before the loop test, the whole trace is
    the shutdown sequence (no link-open request, no command forwarded)
    and the latch is still set at the end. *)
Theorem X4_latched_run_only_shuts_down (arrivals : list Callback)
    (t : Tick) (rest : list (list Callback * Tick)) (self : CrazyflieROS) :
  _isEmergency self = true ->
  snd (_update ((arrivals, t) :: rest) self) = Closed
  /\ snd (fst (_update ((arrivals, t) :: rest) self)) = shutdown_sequence
  /\ _isEmergency (fst (fst (_update ((arrivals, t) :: rest) self))) = true.
Proof.
  intros H. destruct (deliver_latched arrivals self H) as [H1 H2].
  rewrite update_break_head by (right; exact H1). cbn [fst snd].
  rewrite H2. repeat split. exact H1.
Qed.

Lemma X4_latched_run_only_shuts_down_witness :
  snd (fst (_update [([cmd_vel command0; connected "u"], mkTick false 1);
                     ([], mkTick false 1)] (_emergency session0)))
  = shutdown_sequence.
Proof.
  pose proof (X4_latched_run_only_shuts_down
                [cmd_vel command0; connected "u"] (mkTick false 1)
                [([], mkTick false 1)] (_emergency session0) eq_refl)
    as (_ & H & _).
  exact H.
Defined.

(** ** Callbacks between two iterations *)

Lemma last_writer {A} (s : A) (o : option A) (l : list A) :
  default (default s o) (last l)
  = default s (last (match o with Some x => x :: l | None => l end)).
Proof.
  destruct o as [x | ]; [ | reflexivity ].
  rewrite last_cons. destruct (last l); reflexivity.
Qed.

Lemma cmdVelChanged_cmdVel (data : Twist.t) (self : CrazyflieROS) :
  _cmdVel (fst (_cmdVelChanged data self)) = data.
Proof.
  unfold _cmdVelChanged.
  destruct (negb _); [ | reflexivity ].
  destruct (_send_setpoint _); reflexivity.
Qed.

Lemma dispatch_state (cb : Callback) (self : CrazyflieROS) :
  _state (fst (dispatch cb self)) = default (_state self) (state_written cb).
Proof.
  destruct cb; try reflexivity. apply dispatch_cmd_vel_state.
Qed.

Lemma dispatch_cmdVel (cb : Callback) (self : CrazyflieROS) :
  _cmdVel (fst (dispatch cb self))
  = default (_cmdVel self) (command_written cb).
Proof.
  destruct cb as [data | | | | | | ]; try reflexivity.
  unfold dispatch. rewrite <- (cmdVelChanged_cmdVel data self) at 2.
  destruct (_cmdVelChanged data self) as [self' [tr | ex]]; reflexivity.
Qed.

Lemma deliver_state (cbs : list Callback) (self : CrazyflieROS) :
  _state (fst (deliver cbs self))
  = default (_state self) (last (omap state_written cbs)).
Proof.
  revert self. induction cbs as [ | cb cbs IH]; intros self; cbn;
    [ reflexivity | ].
  pose proof (dispatch_state cb self) as Hd.
  destruct (dispatch cb self) as [self1 tr1]; cbn in Hd.
  specialize (IH self1).
  destruct (deliver cbs self1) as [self2 tr2]; cbn in *.
  rewrite IH, Hd. apply last_writer.
Qed.

(** X5. The lifecycle state after any sequence of callbacks is the one
    written by the last lifecycle event among them (connected gives
    Connected; connection-failed, connection-lost and disconnected give
    Disconnected), or the state before when there was none: earlier
    events leave no trace. *)
Theorem X5_last_lifecycle_event_wins (cbs : list Callback)
    (self : CrazyflieROS) :
  _state (fst (deliver cbs self))
  = default (_state self) (last (omap state_written cbs)).
Proof. apply deliver_state. Qed.

(** X6. The stored command after any sequence of callbacks is the last
    command received among them, or the command stored before when
    there was none; with the latch clear or set. *)
Theorem X6_last_command_wins (cbs : list Callback) (self : CrazyflieROS) :
  _cmdVel (fst (deliver cbs self))
  = default (_cmdVel self) (last (omap command_written cbs)).
Proof.
  revert self. induction cbs as [ | cb cbs IH]; intros self; cbn;
    [ reflexivity | ].
  pose proof (dispatch_cmdVel cb self) as Hd.
  destruct (dispatch cb self) as [self1 tr1]; cbn in Hd.
  specialize (IH self1).
  destruct (deliver cbs self1) as [self2 tr2]; cbn in *.
  rewrite IH, Hd. apply last_writer.
Qed.

Lemma dispatch_only_sends (cb : Callback) (self : CrazyflieROS) :
  Forall (fun e => is_send e = true) (snd (dispatch cb self)).
Proof.
  destruct cb as [data | | | | | | ]; try constructor.
  unfold dispatch, _cmdVelChanged.
  destruct (negb _); [ | constructor ].
  destruct (_send_setpoint _) as [e | ex] eqn:He; cbn; [ | constructor ].
  destruct (send_setpoint_thrust _ e He) as (r & p & y & th & -> & _).
  repeat constructor.
Qed.

Lemma deliver_only_sends (cbs : list Callback) :
  forall self, Forall (fun e => is_send e = true) (snd (deliver cbs self)).
Proof.
  induction cbs as [ | cb cbs IH]; intros self; cbn; [ constructor | ].
  pose proof (dispatch_only_sends cb self) as H1.
  destruct (dispatch cb self) as [self1 tr1]; cbn in H1.
  specialize (IH self1).
  destruct (deliver cbs self1) as [self2 tr2]; cbn in *.
  apply Forall_app. now split.
Qed.

Lemma sends_not_open (tr : list Effect) :
  Forall (fun e => is_send e = true) tr -> List.filter is_open tr = [].
Proof.
  induction 1 as [ | e tr He _ IH]; [ reflexivity | ].
  destruct e; cbn in *; try discriminate. exact IH.
Qed.

Lemma update_iteration_no_open (t : Tick) (self : CrazyflieROS) :
  _state self <> Disconnected ->
  _state (fst (fst (_update_iteration t self))) = _state self
  /\ List.filter is_open (snd (fst (_update_iteration t self))) = [].
Proof.
  intros Hst. unfold _update_iteration.
  destruct (is_shutdown t); [ now split | ].
  destruct (_isEmergency self); [ now split | ].
  destruct (_state self) eqn:Hs; [ contradiction | now split | ].
  set (self' := if (0 <? get_num_connections t)%nat then self
                else set_cmdVel Twist.default self).
  assert (Hs' : _state self' = Connected).
  { subst self'. destruct (0 <? _)%nat; exact Hs. }
  destruct (_send_setpoint self') as [e | ex] eqn:He; cbn;
    [ | now split ].
  destruct (send_setpoint_thrust _ e He) as (r & p & y & th & -> & _).
  now split.
Qed.

Lemma no_lifecycle_event (cbs : list Callback) :
  Forall (fun cb => state_written cb = None) cbs ->
  omap state_written cbs = [].
Proof.
  induction 1 as [ | cb cbs Hcb _ IH]; [ reflexivity | ].
  change (omap state_written (cb :: cbs))
    with (match state_written cb with
          | Some y => y :: omap state_written cbs
          | None => omap state_written cbs
          end).
  rewrite Hcb. exact IH.
Qed.

(** X7. While no lifecycle event arrives, a session that is Connecting
    or Connected stays in that state and its watchdog issues no
    link-open request, whatever commands, emergency requests or
    shutdown requests come in: a pending connection attempt is never
    repeated. *)
Theorem X7_no_reconnect_without_event (sched : list (list Callback * Tick))
    (self : CrazyflieROS) :
  _state self <> Disconnected ->
  Forall (fun at_ => Forall (fun cb => state_written cb = None) (fst at_))
    sched ->
  _state (fst (fst (_update sched self))) = _state self
  /\ List.filter is_open (snd (fst (_update sched self))) = [].
Proof.
  intros Hst Hsched. revert self Hst.
  induction Hsched as [ | [arrivals t] sched Harr _ IH]; intros self Hst;
    cbn; [ now split | ].
  pose proof (deliver_state arrivals self) as Hd.
  pose proof (deliver_only_sends arrivals self) as Hsends.
  pose proof (no_lifecycle_event arrivals Harr) as Hnone.
  rewrite Hnone in Hd. cbn in Hd.
  destruct (deliver arrivals self) as [self1 tr1]; cbn in Hd, Hsends.
  apply sends_not_open in Hsends.
  assert (Hst1 : _state self1 <> Disconnected) by now rewrite Hd.
  destruct (update_iteration_no_open t self1 Hst1) as [Hs2 Ho2].
  destruct (_update_iteration t self1) as [[self2 tr2] ctl];
    cbn in Hs2, Ho2.
  destruct ctl as [ | | ex]; cbn.
  - assert (Hst2 : _state self2 <> Disconnected) by now rewrite Hs2.
    destruct (IH self2 Hst2) as [Hs3 Ho3].
    destruct (_update sched self2) as [[self3 tr3] out]; cbn in *.
    split; [ congruence | ].
    now rewrite !List.filter_app, Hsends, Ho2, Ho3.
  - split; [ congruence | ].
    now rewrite !List.filter_app, Hsends, Ho2.
  - split; [ congruence | ].
    now rewrite !List.filter_app, Hsends, Ho2.
Qed.

Lemma X7_no_reconnect_without_event_witness :
  List.filter is_open
    (snd (fst (_update [([cmd_vel command0], mkTick false 1);
                        ([link_quality_updated 50], mkTick false 0);
                        ([emergency], mkTick false 0)]
                 (set_state Connecting session0)))) = [].
Proof.
  pose proof (X7_no_reconnect_without_event
                [([cmd_vel command0], mkTick false 1);
                 ([link_quality_updated 50], mkTick false 0);
                 ([emergency], mkTick false 0)]
                (set_state Connecting session0)
                ltac:(discriminate) ltac:(repeat constructor)) as [_ H].
  exact H.
Defined.

(** ** Commands and the watchdog *)



Lemma sends_not_close (tr : list Effect) :
  Forall (fun e => is_send e = true) tr -> List.filter is_close tr = [].
Proof.
  induction 1 as [ | e tr He _ IH]; [ reflexivity | ].
  destruct e; cbn in *; try discriminate. exact IH.
Qed.

Lemma int_raises_on (x : float) (e : exn) :
  Py.int x = Raise e ->
  (Prim2SF x = S754_nan /\ e = ValueError)
  \/ (exists s, Prim2SF x = S754_infinity s /\ e = OverflowError).
Proof.
  unfold Py.int. destruct (Prim2SF x) as [s | s | | s m ex].
  - discriminate.
  - intros [= <-]. right. now exists s.
  - intros [= <-]. now left.
  - destruct (0 <=? ex)%Z; discriminate.
Qed.

Lemma update_iteration_int_raises (t : Tick) (self : CrazyflieROS)
    (n : nat) (e : exn) :
  is_shutdown t = false ->
  _isEmergency self = false ->
  _state self = Connected ->
  get_num_connections t = S n ->
  Py.int (vertical (_cmdVel self)) = Raise e ->
  _update_iteration t self = (self, [], Uncaught e).
Proof.
  intros Hs He Hc Hn Hint. unfold _update_iteration.
  rewrite Hs, He, Hc, Hn. cbn [Nat.ltb Nat.leb].
  unfold _send_setpoint. unfold vertical in Hint. now rewrite Hint.
Qed.

(** X9. A stored command whose vertical component is a nan or an
    infinity stops the watchdog for good.  When an iteration finds the
    session Connected with a subscriber present, neither shutdown nor
    emergency pending, and [int()] raises on that component
    ([ValueError] on a nan, [OverflowError] on an infinity), the
    exception is raised before anything is handed to the commander and
    nothing catches it: the thread ends there, the iterations that were
    to follow never run, the shutdown sequence is not sent and the link
    is not closed.  (What the commander call itself may raise lies in
    the device library and is not covered here.) *)
Theorem X9_bad_vertical_kills_watchdog (arrivals : list Callback)
    (t : Tick) (rest : list (list Callback * Tick)) (self : CrazyflieROS)
    (n : nat) (e : exn) :
  is_shutdown t = false ->
  _isEmergency (fst (deliver arrivals self)) = false ->
  _state (fst (deliver arrivals self)) = Connected ->
  get_num_connections t = S n ->
  Py.int (vertical (_cmdVel (fst (deliver arrivals self)))) = Raise e ->
  _update ((arrivals, t) :: rest) self
  = (fst (deliver arrivals self), snd (deliver arrivals self), Died e)
  /\ ((Prim2SF (vertical (_cmdVel (fst (deliver arrivals self)))) = S754_nan
       /\ e = ValueError)
      \/ (exists s,
             Prim2SF (vertical (_cmdVel (fst (deliver arrivals self))))
             = S754_infinity s /\ e = OverflowError))
  /\ List.filter is_close (snd (fst (_update ((arrivals, t) :: rest) self)))
     = []
  /\ Forall (fun c => is_send c = true)
       (snd (fst (_update ((arrivals, t) :: rest) self))).
Proof.
  intros Hs He Hc Hn Hint.
  assert (Hrun : _update ((arrivals, t) :: rest) self
                 = (fst (deliver arrivals self),
                    snd (deliver arrivals self), Died e)).
  { cbn [_update].
    pose proof (update_iteration_int_raises t (fst (deliver arrivals self))
                  n e Hs He Hc Hn Hint) as Hit.
    destruct (deliver arrivals self) as [self1 tr1]; cbn [fst snd] in *.
    rewrite Hit. now rewrite app_nil_r. }
  split; [ exact Hrun | ].
  split; [ exact (int_raises_on _ e Hint) | ].
  rewrite Hrun. cbn [fst snd].
  pose proof (deliver_only_sends arrivals self) as Hsends.
  split; [ exact (sends_not_close _ Hsends) | exact Hsends ].
Qed.

Lemma X9_bad_vertical_kills_watchdog_witness :
  _update [([connected "u";
             cmd_vel (Twist.mk (Vector3.mk 0 0 nan) Vector3.default)],
            mkTick false 1);
           ([], mkTick true 1)] session0
  = (set_cmdVel (Twist.mk (Vector3.mk 0 0 nan) Vector3.default)
       (set_state Connected session0),
     [], Died ValueError).
Proof.
  exact (proj1 (X9_bad_vertical_kills_watchdog
                  [connected "u";
                   cmd_vel (Twist.mk (Vector3.mk 0 0 nan) Vector3.default)]
                  (mkTick false 1) [([], mkTick true 1)] session0 0
                  ValueError eq_refl eq_refl eq_refl eq_refl eq_refl)).
Defined.

Lemma send_setpoint_default (self : CrazyflieROS) :
  _send_setpoint (set_cmdVel Twist.default self)
  = Ok (send_setpoint (0 + roll_trim self) (0 + pitch_trim self) 0 0).
Proof. reflexivity. Qed.

Lemma update_iteration_no_subscriber (self : CrazyflieROS) :
  _isEmergency self = false ->
  _state self = Connected ->
  _update_iteration (mkTick false 0) self
  = (set_cmdVel Twist.default self,
     [send_setpoint (0 + roll_trim self) (0 + pitch_trim self) 0 0;
      sleep 0.2], Continue).
Proof.
  intros He Hc. unfold _update_iteration.
  cbn [is_shutdown get_num_connections]. rewrite He, Hc. reflexivity.
Qed.

Lemma update_iteration_subscriber (self : CrazyflieROS) (n : nat)
    (e : Effect) :
  _isEmergency self = false ->
  _state self = Connected ->
  _send_setpoint self = Ok e ->
  _update_iteration (mkTick false (S n)) self
  = (self, [e; sleep 0.2], Continue).
Proof.
  intros He Hc Hs. unfold _update_iteration.
  cbn [is_shutdown get_num_connections Nat.ltb Nat.leb].
  now rewrite He, Hc, Hs.
Qed.

Lemma update_step_continue (t : Tick) (rest : list (list Callback * Tick))
    (self self2 : CrazyflieROS) (tr2 : list Effect) :
  _update_iteration t self = (self2, tr2, Continue) ->
  _update (([], t) :: rest) self
  = (fst (fst (_update rest self2)),
     tr2 ++ snd (fst (_update rest self2)),
     snd (_update rest self2)).
Proof.
  intros H. cbn [_update deliver]. rewrite H.
  now destruct (_update rest self2) as [[self3 tr3] out].
Qed.

(** X10. The reset of the no-subscriber branch is lasting: once an
    iteration has run in Connected without a subscriber, the command
    stored before is gone, and when a subscriber is present again the
    watchdog goes on sending the trims-only setpoint (0.0 + roll_trim,
    0.0 + pitch_trim, 0, 0) until a new command arrives. *)
Theorem X10_reset_outlives_subscriber_gap (self : CrazyflieROS) (n : nat) :
  _isEmergency self = false ->
  _state self = Connected ->
  _update [([], mkTick false 0); ([], mkTick false (S n))] self
  = (set_cmdVel Twist.default self,
     [send_setpoint (0 + roll_trim self) (0 + pitch_trim self) 0 0;
      sleep 0.2;
      send_setpoint (0 + roll_trim self) (0 + pitch_trim self) 0 0;
      sleep 0.2],
     Running).
Proof.
  intros He Hc.
  rewrite (update_step_continue _ _ _ _ _
             (update_iteration_no_subscriber self He Hc)).
  rewrite (update_step_continue _ _ _ _ _
             (update_iteration_subscriber (set_cmdVel Twist.default self) n
                _ He Hc (send_setpoint_default self))).
  reflexivity.
Qed.

Lemma X10_reset_outlives_subscriber_gap_witness :
  snd (fst (_update [([], mkTick false 0); ([], mkTick false 1)]
              (set_cmdVel command0 (set_state Connected session0))))
  = [send_setpoint 1.0 (-0.5) 0 0; sleep 0.2;
     send_setpoint 1.0 (-0.5) 0 0; sleep 0.2].
Proof.
  rewrite (X10_reset_outlives_subscriber_gap
             (set_cmdVel command0 (set_state Connected session0)) 0
             eq_refl eq_refl).
  reflexivity.
Defined.

(** ** Telemetry callbacks and their blocks *)

Lemma carries_imu (data : gmap string float) :
  carries data _lg_imu
  <-> exists ax ay az gx gy gz,
      data !! "acc.x" = Some ax /\ data !! "acc.y" = Some ay
      /\ data !! "acc.z" = Some az /\ data !! "gyro.x" = Some gx
      /\ data !! "gyro.y" = Some gy /\ data !! "gyro.z" = Some gz.
Proof.
  unfold carries, _lg_imu. cbn [LogConfig.variables].
  rewrite !Forall_cons. cbn [fst]. unfold is_Some. split.
  - intros ([ax Hax] & [ay Hay] & [az Haz] & [gx Hgx] & [gy Hgy]
            & [gz Hgz] & _).
    exists ax, ay, az, gx, gy, gz. repeat split; assumption.
  - intros (ax & ay & az & gx & gy & gz & Hax & Hay & Haz & Hgx & Hgy
            & Hgz).
    repeat split; eauto.
Qed.

(** X11. The inertial callback publishes a message exactly when the
    sample carries the six variables its logging block [_lg_imu]
    subscribes to; the message then bears the time read, the frame
    [tf_prefix/base_link] and the orientation covariance -1, 0, ..., 0
    (orientation not supported).  Otherwise it raises [KeyError] on a
    variable of that block and publishes nothing. *)
Theorem X11_imu_callback_needs_its_block (self : CrazyflieROS) (now : Z)
    (data : gmap string float) :
  (carries data _lg_imu ->
   exists m,
     _log_data_imu self now data = Ok m
     /\ Imu.stamp m = now
     /\ Imu.frame_id m = tf_prefix self +:+ "/base_link"
     /\ Imu.orientation_covariance m = (-1)%float :: repeat 0%float 8)
  /\ (~ carries data _lg_imu ->
      exists v,
        v ∈ LogConfig.variables _lg_imu
        /\ data !! v.1 = None
        /\ _log_data_imu self now data = Raise (KeyError v.1)).
Proof.
  split.
  - intros H. apply carries_imu in H
      as (ax & ay & az & gx & gy & gz & Hax & Hay & Haz & Hgx & Hgy & Hgz).
    unfold _log_data_imu, getitem, mbind, result_bind, bind.
    rewrite Hax, Hay, Haz, Hgx, Hgy, Hgz.
    eexists. repeat split.
  - intros H. unfold _log_data_imu, getitem, mbind, result_bind, bind.
    destruct (data !! "gyro.x") as [gx | ] eqn:Hgx;
      [ | exists ("gyro.x", "float"); split; [ set_solver | now split ] ].
    destruct (data !! "gyro.y") as [gy | ] eqn:Hgy;
      [ | exists ("gyro.y", "float"); split; [ set_solver | now split ] ].
    destruct (data !! "gyro.z") as [gz | ] eqn:Hgz;
      [ | exists ("gyro.z", "float"); split; [ set_solver | now split ] ].
    destruct (data !! "acc.x") as [ax | ] eqn:Hax;
      [ | exists ("acc.x", "float"); split; [ set_solver | now split ] ].
    destruct (data !! "acc.y") as [ay | ] eqn:Hay;
      [ | exists ("acc.y", "float"); split; [ set_solver | now split ] ].
    destruct (data !! "acc.z") as [az | ] eqn:Haz;
      [ | exists ("acc.z", "float"); split; [ set_solver | now split ] ].
    exfalso. apply H. apply carries_imu.
    exists ax, ay, az, gx, gy, gz. repeat split; assumption.
Qed.

Lemma X11_imu_callback_needs_its_block_witness :
  (exists m, _log_data_imu session0 7 (imu_sample 1 2) = Ok m)
  /\ exists v, _log_data_imu session0 7 (delete "acc.y" (imu_sample 1 2))
               = Raise (KeyError v).
Proof.
  destruct (X11_imu_callback_needs_its_block session0 7 (imu_sample 1 2))
    as [H1 _].
  destruct (X11_imu_callback_needs_its_block session0 7
              (delete "acc.y" (imu_sample 1 2))) as [_ H2].
  split.
  - destruct H1 as (m & Hm & _); [ | now exists m ].
    apply carries_imu. do 6 eexists. repeat split; reflexivity.
  - destruct H2 as (v & _ & _ & Hv); [ | now exists v.1 ].
    intros Hc. apply carries_imu in Hc as (ax & ay & _ & _ & _ & _ & _ & Hay & _).
    vm_compute in Hay. discriminate.
Defined.

Lemma carries_log2 (data : gmap string float) :
  carries data _lg_log2
  <-> exists mx my mz temp pressure vbat,
      data !! "mag.x" = Some mx /\ data !! "mag.y" = Some my
      /\ data !! "mag.z" = Some mz /\ data !! "baro.temp" = Some temp
      /\ data !! "baro.pressure" = Some pressure
      /\ data !! "pm.vbat" = Some vbat.
Proof.
  unfold carries, _lg_log2. cbn [LogConfig.variables].
  rewrite !Forall_cons. cbn [fst]. unfold is_Some. split.
  - intros ([mx Hmx] & [my Hmy] & [mz Hmz] & [tp Htp] & [pr Hpr]
            & [vb Hvb] & _).
    exists mx, my, mz, tp, pr, vb. repeat split; assumption.
  - intros (mx & my & mz & tp & pr & vb & Hmx & Hmy & Hmz & Htp & Hpr
            & Hvb).
    repeat split; eauto.
Qed.

(** X12. The environmental callback runs to its end exactly when the
    sample carries the six variables its logging block [_lg_log2]
    subscribes to; it then publishes four messages, in the order
    temperature, magnetic field, pressure, battery, each carrying the
    device reading unchanged. *)
Theorem X12_log2_callback_needs_its_block (self : CrazyflieROS)
    (now_temp now_mag : Z) (data : gmap string float) :
  (snd (_log_data_log2 self now_temp now_mag data) = Ok tt
   <-> carries data _lg_log2)
  /\ (forall mx my mz temp pressure vbat,
         data !! "mag.x" = Some mx -> data !! "mag.y" = Some my ->
         data !! "mag.z" = Some mz -> data !! "baro.temp" = Some temp ->
         data !! "baro.pressure" = Some pressure ->
         data !! "pm.vbat" = Some vbat ->
         fst (_log_data_log2 self now_temp now_mag data)
         = [publish_temperature now_temp (tf_prefix self +:+ "/base_link")
              temp;
            publish_magnetic_field now_mag
              (tf_prefix self +:+ "/base_link") (Vector3.mk mx my mz);
            publish_pressure pressure;
            publish_battery vbat]).
Proof.
  split.
  - rewrite carries_log2.
    unfold _log_data_log2, getitem, mbind, result_bind, bind. split.
    + destruct (data !! "baro.temp") as [tp | ]; [ | discriminate ].
      destruct (data !! "mag.x") as [mx | ]; [ | discriminate ].
      destruct (data !! "mag.y") as [my | ]; [ | discriminate ].
      destruct (data !! "mag.z") as [mz | ]; [ | discriminate ].
      destruct (data !! "baro.pressure") as [pr | ]; [ | discriminate ].
      destruct (data !! "pm.vbat") as [vb | ]; [ | discriminate ].
      intros _. exists mx, my, mz, tp, pr, vb. repeat split.
    + intros (mx & my & mz & tp & pr & vb & -> & -> & -> & -> & -> & ->).
      reflexivity.
  - intros mx my mz tp pr vb Hmx Hmy Hmz Htp Hpr Hvb.
    unfold _log_data_log2, getitem, mbind, result_bind, bind.
    now rewrite Htp, Hmx, Hmy, Hmz, Hpr, Hvb.
Qed.

Lemma X12_log2_callback_needs_its_block_witness :
  _log_data_log2 session0 1 2 (log2_sample 0.5 21.5 1013.25 3.7)
  = ([publish_temperature 1 "cf/base_link" 21.5;
      publish_magnetic_field 2 "cf/base_link" (Vector3.mk 0.5 0.5 0.5);
      publish_pressure 1013.25; publish_battery 3.7], Ok tt).
Proof.
  destruct (X12_log2_callback_needs_its_block session0 1 2
              (log2_sample 0.5 21.5 1013.25 3.7)) as [[_ H1] H2].
  apply injective_projections.
  - exact (H2 _ _ _ _ _ _ eq_refl eq_refl eq_refl eq_refl eq_refl eq_refl).
  - apply H1. apply carries_log2. do 6 eexists. repeat split; reflexivity.
Defined.

(** X13. A sample that lacks variables still publishes what precedes the
    first missing one, and nothing after it: without the temperature
    nothing is published; with the temperature but without a magnetic
    component, the temperature alone; with those but without the
    pressure, temperature and magnetic field; with all but the battery
    voltage, temperature, magnetic field and pressure.  Each time the
    callback ends on the [KeyError] of the first missing variable, and
    what it published is an initial part, in order and with the same
    contents, of what the completed sample publishes. *)
Theorem X13_log2_publishes_up_to_first_missing (self : CrazyflieROS)
    (now_temp now_mag : Z) (data data' : gmap string float) :
  data ⊆ data' ->
  fst (_log_data_log2 self now_temp now_mag data)
    `prefix_of` fst (_log_data_log2 self now_temp now_mag data')
  /\ (data !! "baro.temp" = None ->
      _log_data_log2 self now_temp now_mag data
      = ([], Raise (KeyError "baro.temp")))
  /\ (forall temp key,
         data !! "baro.temp" = Some temp ->
         (key = "mag.x" /\ data !! "mag.x" = None
          \/ key = "mag.y" /\ is_Some (data !! "mag.x")
             /\ data !! "mag.y" = None
          \/ key = "mag.z" /\ is_Some (data !! "mag.x")
             /\ is_Some (data !! "mag.y") /\ data !! "mag.z" = None) ->
         _log_data_log2 self now_temp now_mag data
         = ([publish_temperature now_temp
               (tf_prefix self +:+ "/base_link") temp],
            Raise (KeyError key)))
  /\ (forall temp mx my mz,
         data !! "baro.temp" = Some temp ->
         data !! "mag.x" = Some mx -> data !! "mag.y" = Some my ->
         data !! "mag.z" = Some mz ->
         data !! "baro.pressure" = None ->
         _log_data_log2 self now_temp now_mag data
         = ([publish_temperature now_temp
               (tf_prefix self +:+ "/base_link") temp;
             publish_magnetic_field now_mag
               (tf_prefix self +:+ "/base_link") (Vector3.mk mx my mz)],
            Raise (KeyError "baro.pressure")))
  /\ (forall temp mx my mz pressure,
         data !! "baro.temp" = Some temp ->
         data !! "mag.x" = Some mx -> data !! "mag.y" = Some my ->
         data !! "mag.z" = Some mz ->
         data !! "baro.pressure" = Some pressure ->
         data !! "pm.vbat" = None ->
         _log_data_log2 self now_temp now_mag data
         = ([publish_temperature now_temp
               (tf_prefix self +:+ "/base_link") temp;
             publish_magnetic_field now_mag
               (tf_prefix self +:+ "/base_link") (Vector3.mk mx my mz);
             publish_pressure pressure],
            Raise (KeyError "pm.vbat"))).
Proof.
  intros Hsub. split; [ | split; [ | split; [ | split ] ] ].
  - unfold _log_data_log2, getitem, mbind, result_bind, bind.
    destruct (data !! "baro.temp") as [tp | ] eqn:Htp;
      [ rewrite (lookup_weaken _ _ _ _ Htp Hsub) | apply prefix_nil ].
    destruct (data !! "mag.x") as [mx | ] eqn:Hmx;
      [ rewrite (lookup_weaken _ _ _ _ Hmx Hsub)
      | repeat case_match; apply prefix_cons, prefix_nil ].
    destruct (data !! "mag.y") as [my | ] eqn:Hmy;
      [ rewrite (lookup_weaken _ _ _ _ Hmy Hsub)
      | repeat case_match; apply prefix_cons, prefix_nil ].
    destruct (data !! "mag.z") as [mz | ] eqn:Hmz;
      [ rewrite (lookup_weaken _ _ _ _ Hmz Hsub)
      | repeat case_match; apply prefix_cons, prefix_nil ].
    destruct (data !! "baro.pressure") as [pr | ] eqn:Hpr;
      [ rewrite (lookup_weaken _ _ _ _ Hpr Hsub)
      | repeat case_match; do 2 apply prefix_cons; apply prefix_nil ].
    destruct (data !! "pm.vbat") as [vb | ] eqn:Hvb;
      [ rewrite (lookup_weaken _ _ _ _ Hvb Hsub)
      | repeat case_match; do 3 apply prefix_cons; apply prefix_nil ].
    reflexivity.
  - intros H. unfold _log_data_log2, getitem. now rewrite H.
  - intros temp key Htp Hkey.
    unfold _log_data_log2, getitem, mbind, result_bind, bind. rewrite Htp.
    destruct Hkey as [(-> & Hx) | [(-> & [mx Hx] & Hy)
                                  | (-> & [mx Hx] & [my Hy] & Hz)]].
    + now rewrite Hx.
    + now rewrite Hx, Hy.
    + now rewrite Hx, Hy, Hz.
  - intros temp mx my mz Htp Hx Hy Hz Hp.
    unfold _log_data_log2, getitem, mbind, result_bind, bind.
    now rewrite Htp, Hx, Hy, Hz, Hp.
  - intros temp mx my mz pr Htp Hx Hy Hz Hp Hv.
    unfold _log_data_log2, getitem, mbind, result_bind, bind.
    now rewrite Htp, Hx, Hy, Hz, Hp, Hv.
Qed.

Lemma X13_log2_publishes_up_to_first_missing_witness :
  _log_data_log2 session0 1 2
    (delete "pm.vbat" (log2_sample 0.5 21.5 1013.25 3.7))
  = ([publish_temperature 1 "cf/base_link" 21.5;
      publish_magnetic_field 2 "cf/base_link" (Vector3.mk 0.5 0.5 0.5);
      publish_pressure 1013.25],
     Raise (KeyError "pm.vbat"))
  /\ _log_data_log2 session0 1 2
       (delete "mag.y" (log2_sample 0.5 21.5 1013.25 3.7))
     = ([publish_temperature 1 "cf/base_link" 21.5],
        Raise (KeyError "mag.y")).
Proof.
  split.
  - destruct (X13_log2_publishes_up_to_first_missing session0 1 2
                (delete "pm.vbat" (log2_sample 0.5 21.5 1013.25 3.7))
                (log2_sample 0.5 21.5 1013.25 3.7)
                (delete_subseteq _ _)) as (_ & _ & _ & _ & H).
    exact (H 21.5%float 0.5%float 0.5%float 0.5%float 1013.25%float
             eq_refl eq_refl eq_refl eq_refl eq_refl eq_refl).
  - destruct (X13_log2_publishes_up_to_first_missing session0 1 2
                (delete "mag.y" (log2_sample 0.5 21.5 1013.25 3.7))
                (log2_sample 0.5 21.5 1013.25 3.7)
                (delete_subseteq _ _)) as (_ & _ & H & _).
    apply (H 21.5%float "mag.y" eq_refl).
    right. left. split; [ reflexivity | split; [ | reflexivity ] ].
    exists 0.5%float. reflexivity.
Defined.

(** X14. On connection, a logging block is configured exactly when the
    session was created with logging enabled, and started exactly when,
    in addition, the device's catalog validated it: a block the catalog
    rejects is skipped without keeping the other block from starting. *)
Theorem X14_blocks_start_independently (self : CrazyflieROS)
    (valid : LogConfig.t -> bool) (c : LogConfig.t) :
  (add_config c ∈ _connected_logging self valid
   <-> enable_logging self = true /\ (c = _lg_imu \/ c = _lg_log2))
  /\ (start c ∈ _connected_logging self valid
      <-> enable_logging self = true /\ valid c = true
          /\ (c = _lg_imu \/ c = _lg_log2)).
Proof.
  unfold _connected_logging, setup_block.
  destruct (enable_logging self);
    [ | split; split; [ intros H; now apply elem_of_nil in H | intros [H _]; discriminate
                      | intros H; now apply elem_of_nil in H | intros [H _]; discriminate ] ].
  assert (Hne : _lg_imu <> _lg_log2) by discriminate.
  destruct (valid _lg_imu) eqn:Hi, (valid _lg_log2) eqn:Hl; cbn;
    rewrite ?elem_of_cons, ?elem_of_nil; split; split;
    intuition (try discriminate; subst; try congruence; auto).
Qed.

Lemma X14_blocks_start_independently_witness :
  start _lg_log2
    ∈ _connected_logging (__init__ "u" "cf" 0 0 true)
        (fun c => String.eqb (LogConfig.name c) "LOG2")
  /\ start _lg_imu
       ∉ _connected_logging (__init__ "u" "cf" 0 0 true)
           (fun c => String.eqb (LogConfig.name c) "LOG2").
Proof.
  split.
  - apply (proj2 (proj2 (X14_blocks_start_independently
                           (__init__ "u" "cf" 0 0 true)
                           (fun c => String.eqb (LogConfig.name c) "LOG2")
                           _lg_log2))).
    split; [ reflexivity | split; [ reflexivity | now right ] ].
  - intros H.
    apply (proj1 (proj2 (X14_blocks_start_independently
                           (__init__ "u" "cf" 0 0 true)
                           (fun c => String.eqb (LogConfig.name c) "LOG2")
                           _lg_imu))) in H.
    destruct H as (_ & H & _). discriminate H.
Defined.

(** ** Parameters: identifiers and paths *)

Lemma append_inj_l (p a b : string) : p +:+ a = p +:+ b -> a = b.
Proof.
  induction p as [ | c p IH]; cbn; [ trivial | ].
  intros [= H]. exact (IH H).
Qed.

Lemma replace_injective (old new : ascii) (a b : string) :
  Py.contains new a = false -> Py.contains new b = false ->
  Py.replace old new a = Py.replace old new b -> a = b.
Proof.
  intros Ha Hb H. apply (f_equal (Py.replace new old)) in H.
  now rewrite !replace_inverse in H.
Qed.

Lemma contains_replace (old new : ascii) (s : string) :
  old <> new -> Py.contains old (Py.replace old new s) = false.
Proof.
  intros Hne. induction s as [ | c s IH]; cbn; [ reflexivity | ].
  rewrite IH, orb_false_r.
  destruct (Ascii.eqb c old) eqn:E; [ | exact E ].
  apply Ascii.eqb_neq. congruence.
Qed.

Lemma length_replace (old new : ascii) (s : string) :
  String.length (Py.replace old new s) = String.length s.
Proof. induction s as [ | c s IH]; cbn; congruence. Qed.

(** X15. Notifications for two different device identifiers (neither
    containing '/') are written to two different paths: each value can
    be read back at its own path after both notifications, in whichever
    order they arrive; and a second notification for the same
    identifier replaces the first. *)
Theorem X15_notifications_do_not_collide {value : Type}
    (self : CrazyflieROS) (store : gmap string value)
    (n1 n2 : string) (v1 v2 : value) :
  Py.contains "/" n1 = false ->
  Py.contains "/" n2 = false ->
  n1 <> n2 ->
  _param_callback self n2 v2 (_param_callback self n1 v1 store)
    !! (tf_prefix self +:+ "/" +:+ Py.replace "." "/" n1) = Some v1
  /\ _param_callback self n2 v2 (_param_callback self n1 v1 store)
       !! (tf_prefix self +:+ "/" +:+ Py.replace "." "/" n2) = Some v2
  /\ _param_callback self n1 v1 (_param_callback self n2 v2 store)
     = _param_callback self n2 v2 (_param_callback self n1 v1 store)
  /\ _param_callback self n1 v2 (_param_callback self n1 v1 store)
     = _param_callback self n1 v2 store.
Proof.
  intros H1 H2 Hne. unfold _param_callback.
  assert (Hk : tf_prefix self +:+ "/" +:+ Py.replace "." "/" n1
               <> tf_prefix self +:+ "/" +:+ Py.replace "." "/" n2).
  { intros E. apply append_inj_l in E. apply (append_inj_l "/") in E.
    apply Hne. exact (replace_injective _ _ _ _ H1 H2 E). }
  split; [ | split; [ | split ] ].
  - rewrite lookup_insert_ne by congruence. apply lookup_insert_eq.
  - apply lookup_insert_eq.
  - apply insert_insert_ne. exact Hk.
  - apply insert_insert_eq.
Qed.

Lemma X15_notifications_do_not_collide_witness :
  _param_callback session0 "pid.kd" 2%Z
    (_param_callback session0 "pid.kp" 1%Z ∅)
  = {[ "cf/pid/kp" := 1%Z; "cf/pid/kd" := 2%Z ]}.
Proof.
  destruct (X15_notifications_do_not_collide session0 (∅ : gmap string Z)
              "pid.kp" "pid.kd" 1%Z 2%Z eq_refl eq_refl
              ltac:(discriminate)) as (_ & _ & H & _).
  rewrite <- H. reflexivity.
Defined.

(** X16. Whatever the request, every identifier the update handler
    pushes to the device is a requested path with each '/' turned into
    '.': it contains no '/' and has the length of the path; and the
    path a notification writes contains no '.' after the prefix. *)
Theorem X16_mapped_names_are_clean {value : Type}
    (py_str : value -> string) (set_value_raises : string -> option exn)
    (self : CrazyflieROS) (store : gmap string value)
    (req : list string) (name : string) (v : value) :
  Forall (fun c => exists p id,
              p ∈ req /\ pushed_identifier c = Some id
              /\ Py.contains "/" id = false
              /\ String.length id = String.length p)
    (fst (_update_params py_str set_value_raises self store req))
  /\ exists path,
      _param_callback self name v store
      = <[tf_prefix self +:+ "/" +:+ path := v]> store
      /\ Py.contains "." path = false
      /\ String.length path = String.length name.
Proof.
  split.
  - pose proof (update_params_loop_pushes py_str set_value_raises self
                  store req) as Hall.
    unfold _update_params.
    destruct (_update_params_loop _ _ _ _ _) as [calls r]. cbn in *.
    eapply Forall_impl; [ exact Hall | ].
    intros c (p & w & Hp & _ & ->). exists p, (Py.replace "/" "." p).
    split; [ exact Hp | split; [ reflexivity | split ] ].
    + now apply contains_replace.
    + apply length_replace.
  - exists (Py.replace "." "/" name).
    split; [ reflexivity | split ].
    + now apply contains_replace.
    + apply length_replace.
Qed.

Lemma existsb_false_Forall {A} (f : A -> bool) (l : list A) :
  existsb f l = false <-> Forall (fun x => f x = false) l.
Proof.
  induction l as [ | x l IH]; cbn.
  - split; [ constructor | reflexivity ].
  - rewrite orb_false_iff, IH, Forall_cons. reflexivity.
Qed.

(** X17. The update handler returns its response exactly when no entry
    of the request fails (every path has a value in the store and the
    device refuses no push); it has then pushed one value per entry, in
    the order of the request, repeated paths included. *)
Theorem X17_update_params_succeeds_iff {value : Type}
    (py_str : value -> string) (set_value_raises : string -> option exn)
    (self : CrazyflieROS) (store : gmap string value)
    (req : list string) :
  (snd (_update_params py_str set_value_raises self store req)
   = Ok mkUpdateParamsResponse
   <-> existsb (entry_fails set_value_raises self store) req = false)
  /\ (existsb (entry_fails set_value_raises self store) req = false ->
      fst (_update_params py_str set_value_raises self store req)
      = omap (push_of py_str self store) req
      /\ length (fst (_update_params py_str set_value_raises self store req))
         = length req).
Proof.
  assert (Hok : existsb (entry_fails set_value_raises self store) req = false ->
                _update_params py_str set_value_raises self store req
                = (omap (push_of py_str self store) req,
                   Ok mkUpdateParamsResponse)).
  { intros H. apply existsb_false_Forall in H.
    pose proof (update_params_loop_app py_str set_value_raises self store
                  req [] H) as Happ.
    cbn in Happ. rewrite !app_nil_r in Happ.
    unfold _update_params. now rewrite Happ. }
  split; [ split | ].
  - intros H.
    destruct (existsb _ req) eqn:Hex; [ | reflexivity ].
    destruct (split_at_first_failure set_value_raises self store req Hex)
      as (pre & q & post & -> & Hpre & Hq).
    pose proof (update_params_loop_app py_str set_value_raises self store
                  pre (q :: post) Hpre) as Happ.
    destruct (update_params_loop_fail py_str set_value_raises self store
                q post Hq) as [e He].
    rewrite He in Happ. unfold _update_params in H. rewrite Happ in H.
    discriminate H.
  - intros H. now rewrite (Hok H).
  - intros H. rewrite (Hok H). cbn [fst]. split; [ reflexivity | ].
    apply (omap_push_length py_str set_value_raises).
    now apply existsb_false_Forall.
Qed.

Lemma X17_update_params_succeeds_iff_witness :
  _update_params str_Z accepts_all session0 store0
    ["flightmode/posSet"; "flightmode/posSet"]
  = ([set_value "flightmode.posSet" (text "1");
      set_value "flightmode.posSet" (text "1")],
     Ok mkUpdateParamsResponse).
Proof.
  destruct (X17_update_params_succeeds_iff str_Z accepts_all session0 store0
              ["flightmode/posSet"; "flightmode/posSet"]) as [[_ H1] H2].
  apply injective_projections.
  - destruct (H2 eq_refl) as [H _]. rewrite H. reflexivity.
  - exact (H1 eq_refl).
Defined.

(** ** Parameters: seeding at connection time *)

Section SeedingFacts.

Context {value : Type}.
Variable set_value_raises : string -> option exn.
Variable self : CrazyflieROS.
Variable store : gmap string value.




End SeedingFacts.




